(** * Admin REST services of drealcorse-reports

    A shallow embedding of [drealcorsereports/views/admin.py]: the
    [AdminReportModelView] resource (collection and item views of
    [/report_models]), the [tjs_view] service and the [/layers] service,
    together with the part of the web framework those views are configured
    through (context factory, ACL authorisation, validators, view method).

    The persistence session is an explicit store that is passed through the
    request handling; exceptions are values of an error monad. *)

From stdpp Require Import gmap strings list fin_maps.
From Stdlib Require Import ZArith Lia Ascii HexString.

Open Scope string_scope.
Open Scope Z_scope.
Open Scope list_scope.

(** ** Exceptions and results *)

Inductive exn :=
| HTTPNotFound                (* pyramid.exceptions.HTTPNotFound *)
| HTTPForbidden               (* raised by the framework when a permission is denied *)
| ValueError                  (* uuid.UUID on a badly formed string *)
| HTTPError (status : Z)      (* requests.Response.raise_for_status *)
| JSONDecodeError             (* a remote body that is not the expected document *)
| IntegrityError.             (* primary key already present at flush *)

Inductive outcome (A : Type) :=
| Returns (a : A)
| Raises (e : exn).
Arguments Returns {A} a.
Arguments Raises {A} e.

#[global] Instance outcome_ret : MRet outcome := λ A a, Returns a.
#[global] Instance outcome_bind : MBind outcome := λ A B f m,
  match m with
  | Returns a => f a
  | Raises e => Raises e
  end.

(** ** Data model *)

(** A row of the [ReportModel] table.  Identifiers are the 128-bit integers
    of Python's [uuid.UUID]; the schema document is kept as serialised text;
    time stamps are seconds on the UTC clock. *)
Record ReportModel := mkReportModel {
  id_ : N;
  name : string;
  layer_id : string;
  custom_field_schema : string;
  created_by : option string;
  created_at : Z;
  updated_by : option string;
  updated_at : Z;
}.

(** The JSON body of a create or update request. *)
Record Payload := mkPayload {
  body_name : string;
  body_layer_id : string;
  body_custom_field_schema : string;
}.

Inductive Method := GET | POST | PUT | DELETE.

#[global] Instance Method_eq_dec : EqDecision Method.
Proof. solve_decision. Defined.

(** The three routes that use [AdminReportModelView] as context factory:
    [/report_models], [/report_models/{id}] and
    [/report_models/{id}/tjs_view]. *)
Inductive Route :=
| report_models_collection
| report_models_item (id : string)
| tjs_views (id : string).

(** What a view reads from [pyramid.request.Request].  The security policy
    fills in [authenticated_userid] and [effective_principals] from the
    headers set by the proxy; [now] is the clock read by
    [datetime.now(timezone.utc)], [uuid4] the identifier drawn for a record
    inserted by this request. *)
Record Request := mkRequest {
  method : Method;
  route : Route;
  authenticated_userid : option string;
  effective_principals : list string;
  json_body : Payload;
  now : Z;
  uuid4 : N;
}.

(** [request.matchdict.get("id")] *)
Definition matchdict_get_id (req : Request) : option string :=
  match route req with
  | report_models_collection => None
  | report_models_item id => Some id
  | tjs_views id => Some id
  end.

(** Python truth value of [matchdict.get("id")]: [None] and the empty string
    are false. *)
Definition truthy (o : option string) : bool :=
  match o with
  | None => false
  | Some s => negb (bool_decide (s = ""))
  end.

(** ** What the views import but this module does not define *)

(** [uuid.UUID] from the standard library ([None] where it raises
    [ValueError]), and the helper of [drealcorsereports.security] that asks
    the map server whether the user of a request administers a layer. *)
Class Environment := {
  UUID : string → option N;
  is_user_admin_on_layer : Request → string → bool;
  tjs_view_name : ReportModel → string;
}.

(** ** Responses *)

Record FieldError := mkFieldError {
  location : string;
  field : string;
  description : list string;
}.

Inductive Body :=
| NoBody
| Dump (rm : ReportModel)            (* ReportModelSchema().dump(rm) *)
| DumpAll (rms : list ReportModel)
| Errors (errs : list FieldError)    (* {"status": "error", "errors": [...]} *)
| View (view : string).              (* {"view": ...} *)

Record Response := mkResponse {
  status_code : Z;
  body : Body;
}.

(** ** Access control lists *)

Inductive Action := Allow | Deny.

(** An access control entry [(action, principal, permissions)].  The
    principal of the dynamic entry is [request.authenticated_userid], which
    is [None] for an anonymous request. *)
Definition ACE : Type := Action * option string * list string.

(** [ace_principal in principals] *)
Definition principal_in (p : option string) (principals : list string) : bool :=
  match p with
  | Some s => bool_decide (s ∈ principals)
  | None => false
  end.

(** [ACLAuthorizationPolicy.permits]: the first entry that names one of the
    principals and the permission decides; no such entry denies. *)
Fixpoint permits (acl : list ACE) (principals : list string)
    (permission : string) : bool :=
  match acl with
  | [] => false
  | (action, p, permissions) :: acl' =>
      if principal_in p principals && bool_decide (permission ∈ permissions)
      then match action with Allow => true | Deny => false end
      else permits acl' principals permission
  end.

(** ** The report model schema *)

(** Modelled from the spec: [ReportModelSchema]
    ([drealcorsereports.schemas.reports]) is not among the sources.  The
    spec has two field-level checks at the schema-validation layer: the name
    is unique, and the submitted layer passes the same layer-admin check as
    the ACL.  The messages are those the tests expect.  On an update the
    name may stay the one the addressed row already has. *)
Definition name_exists (dbsession : gmap N ReportModel) (instance : option N)
    (n : string) : bool :=
  bool_decide (map_Exists (λ i rm, name rm = n ∧ Some i ≠ instance) dbsession).

Definition name_error (n : string) : FieldError :=
  {| location := "body"; field := "name";
     description := ["Report model named " +:+ n +:+ " already exists."] |}.

Definition layer_id_error (l : string) : FieldError :=
  {| location := "body"; field := "layer_id";
     description := ["You're not admin on layer " +:+ l +:+ "."] |}.

(** Modelled from the spec: the instance the schema loads the body into.  It
    is the session's row for the addressed identifier when there is one (the
    tests submit that identifier in the body as well), and otherwise a new
    object whose identifier and audit attributes are not set yet (they read
    as [0] and [None] here). *)
Definition load_instance (dbsession : gmap N ReportModel) (instance : option N)
    (data : Payload) : ReportModel :=
  match instance ≫= (dbsession !!.) with
  | Some rm =>
      {| id_ := id_ rm; name := body_name data; layer_id := body_layer_id data;
         custom_field_schema := body_custom_field_schema data;
         created_by := created_by rm; created_at := created_at rm;
         updated_by := updated_by rm; updated_at := updated_at rm |}
  | None =>
      {| id_ := 0%N; name := body_name data; layer_id := body_layer_id data;
         custom_field_schema := body_custom_field_schema data;
         created_by := None; created_at := 0;
         updated_by := None; updated_at := 0 |}
  end.

(** Modelled from the spec: what the model
    ([drealcorsereports.models.reports], not among the sources) does when a
    new object is added and flushed: the row gets its identifier and both
    time stamps; a taken identifier violates the primary key. *)
Definition add_flush (req : Request) (rm : ReportModel)
    (dbsession : gmap N ReportModel) : outcome (ReportModel * gmap N ReportModel) :=
  match dbsession !! uuid4 req with
  | Some _ => Raises IntegrityError
  | None =>
      let row :=
        {| id_ := uuid4 req; name := name rm; layer_id := layer_id rm;
           custom_field_schema := custom_field_schema rm;
           created_by := created_by rm; created_at := now req;
           updated_by := updated_by rm; updated_at := now req |} in
      Returns (row, <[uuid4 req := row]> dbsession)
  end.

(** ** AdminReportModelView *)

Definition static_acl : list ACE :=
  [ (Allow, Some "ROLE_REPORTS_ADMIN", ["list"; "add"; "view"]);
    (Allow, Some "ROLE_SUPERUSER", ["list"; "add"; "view"; "edit"; "delete"]) ].

Definition dynamic_ace (req : Request) : ACE :=
  (Allow, authenticated_userid req, ["edit"; "delete"]).

Module AdminReportModelView.

Record t := mkView {
  request : Request;
  report_models_id : option N;
}.

Section Methods.
Context `{Environment}.

(** [__init__] *)
Definition __init__ (req : Request) : outcome t :=
  if truthy (matchdict_get_id req) then
    match UUID (default "" (matchdict_get_id req)) with
    | Some u => Returns {| request := req; report_models_id := Some u |}
    | None => Raises ValueError
    end
  else Returns {| request := req; report_models_id := None |}.

(** [get_object]; [query.get(None)] finds nothing. *)
Definition get_object (self : t) (dbsession : gmap N ReportModel)
    : outcome ReportModel :=
  match report_models_id self ≫= (dbsession !!.) with
  | Some rm => Returns rm
  | None => Raises HTTPNotFound
  end.

(** [__acl__] *)
Definition __acl__ (self : t) (dbsession : gmap N ReportModel)
    : outcome (list ACE) :=
  if bool_decide (is_Some (report_models_id self))
     && bool_decide ("ROLE_REPORTS_ADMIN" ∈ effective_principals (request self))
  then
    rm ← get_object self dbsession;
    if is_user_admin_on_layer (request self) (layer_id rm)
    then Returns (static_acl ++ [dynamic_ace (request self)])
    else Returns static_acl
  else Returns static_acl.

(** [marshmallow_validator]: the errors of the body, or the instance it was
    loaded into ([request.validated]). *)
Definition marshmallow_validator (self : t) (dbsession : gmap N ReportModel)
    : list FieldError + ReportModel :=
  let data := json_body (request self) in
  let errors :=
    (if name_exists dbsession (report_models_id self) (body_name data)
     then [name_error (body_name data)] else [])
    ++ (if is_user_admin_on_layer (request self) (body_layer_id data)
        then [] else [layer_id_error (body_layer_id data)]) in
  match errors with
  | [] => inr (load_instance dbsession (report_models_id self) data)
  | _ => inl errors
  end.

(** [collection_get] *)
Definition collection_get (self : t) (dbsession : gmap N ReportModel)
    : outcome (Response * gmap N ReportModel) :=
  Returns ({| status_code := 200;
              body := DumpAll (snd <$> map_to_list dbsession) |}, dbsession).

(** [collection_post] *)
Definition collection_post (self : t) (dbsession : gmap N ReportModel)
    (validated : ReportModel) : outcome (Response * gmap N ReportModel) :=
  let report_model :=
    {| id_ := id_ validated; name := name validated;
       layer_id := layer_id validated;
       custom_field_schema := custom_field_schema validated;
       created_by := authenticated_userid (request self);
       created_at := created_at validated;
       updated_by := authenticated_userid (request self);
       updated_at := updated_at validated |} in
  '(row, dbsession') ← add_flush (request self) report_model dbsession;
  Returns ({| status_code := 201; body := Dump row |}, dbsession').

(** [get] *)
Definition get (self : t) (dbsession : gmap N ReportModel)
    : outcome (Response * gmap N ReportModel) :=
  rm ← get_object self dbsession;
  Returns ({| status_code := 200; body := Dump rm |}, dbsession).

(** Modelled from the spec: the sources do not say which instance the
    schema hands to [put] as [request.validated]; the spec has the item
    views act on the row of the URL, and this model takes the validated
    instance of an update to be the session's object for that row, whose
    attributes are written back under its key. *)
Definition write_back (self : t) (rm : ReportModel)
    (dbsession : gmap N ReportModel) : gmap N ReportModel :=
  match report_models_id self with
  | Some u => <[u := rm]> dbsession
  | None => dbsession
  end.

(** [put] *)
Definition put (self : t) (dbsession : gmap N ReportModel)
    (validated : ReportModel) : outcome (Response * gmap N ReportModel) :=
  _ ← get_object self dbsession;
  let report_model :=
    {| id_ := id_ validated; name := name validated;
       layer_id := layer_id validated;
       custom_field_schema := custom_field_schema validated;
       created_by := created_by validated;
       created_at := created_at validated;
       updated_by := authenticated_userid (request self);
       updated_at := now (request self) |} in
  Returns ({| status_code := 200; body := Dump report_model |},
           write_back self report_model dbsession).

(** [dbsession.delete(rm)] for the row [get_object] returned. *)
Definition session_delete (self : t) (dbsession : gmap N ReportModel)
    : gmap N ReportModel :=
  match report_models_id self with
  | Some u => base.delete u dbsession
  | None => dbsession
  end.

(** [delete] *)
Definition delete (self : t) (dbsession : gmap N ReportModel)
    : outcome (Response * gmap N ReportModel) :=
  _ ← get_object self dbsession;
  Returns ({| status_code := 204; body := NoBody |},
           session_delete self dbsession).

(** [post_tjs_view], whose context is the same class.  The database view
    that [create_tjs_view] makes is not a row of the table. *)
Definition post_tjs_view (context : t) (dbsession : gmap N ReportModel)
    : outcome (Response * gmap N ReportModel) :=
  report_model ← get_object context dbsession;
  Returns ({| status_code := 200; body := View (tjs_view_name report_model) |},
           dbsession).

End Methods.
End AdminReportModelView.

(** ** Request handling *)

(** The framework calls the context factory, then the view that the route
    and the method select.  A view with a permission first asks the
    authorisation policy, which reads the ACL of the context; a view with
    validators runs them next and answers 400 with their errors; only then
    the method runs. *)
Section Handling.
Context `{Environment}.
Import AdminReportModelView.

Definition secured (permission : string) (context : t)
    (dbsession : gmap N ReportModel)
    (view : outcome (Response * gmap N ReportModel))
    : outcome (Response * gmap N ReportModel) :=
  acl ← __acl__ context dbsession;
  if permits acl (effective_principals (request context)) permission
  then view
  else Raises HTTPForbidden.

Definition validated_by (self : t) (dbsession : gmap N ReportModel)
    (view : ReportModel → outcome (Response * gmap N ReportModel))
    : outcome (Response * gmap N ReportModel) :=
  match marshmallow_validator self dbsession with
  | inl errors => Returns ({| status_code := 400; body := Errors errors |}, dbsession)
  | inr validated => view validated
  end.

Definition dispatch (req : Request) (dbsession : gmap N ReportModel)
    : outcome (Response * gmap N ReportModel) :=
  self ← __init__ req;
  match route req, method req with
  | report_models_collection, GET =>
      secured "list" self dbsession (collection_get self dbsession)
  | report_models_collection, POST =>
      secured "add" self dbsession
        (validated_by self dbsession (collection_post self dbsession))
  | report_models_item _, GET =>
      secured "view" self dbsession (get self dbsession)
  | report_models_item _, PUT =>
      secured "edit" self dbsession
        (validated_by self dbsession (put self dbsession))
  | report_models_item _, DELETE =>
      secured "delete" self dbsession (delete self dbsession)
  | tjs_views _, POST =>
      secured "edit" self dbsession (post_tjs_view self dbsession)
  | _, _ =>
      Returns ({| status_code := 405; body := NoBody |}, dbsession)
  end.

(** The transaction of a request is committed when the view returns and
    rolled back when it raises. *)
Definition handle (req : Request) (dbsession : gmap N ReportModel)
    : outcome Response * gmap N ReportModel :=
  match dispatch req dbsession with
  | Returns (response, dbsession') => (Returns response, dbsession')
  | Raises e => (Raises e, dbsession)
  end.

(** A request passes the permission check of a view: the context is made,
    its ACL is computed, and the policy permits. *)
Definition permitted (permission : string) (req : Request)
    (dbsession : gmap N ReportModel) : Prop :=
  ∃ context acl,
    __init__ req = Returns context
    ∧ __acl__ context dbsession = Returns acl
    ∧ permits acl (effective_principals req) permission = true.

(** The principals that the ACL of a stored row lets edit and delete it: a
    superuser, or a reports admin who administers the layer of the row and
    whose user id is among the effective principals. *)
Definition may_change (req : Request) (rm : ReportModel) : bool :=
  bool_decide ("ROLE_SUPERUSER" ∈ effective_principals req)
  || bool_decide ("ROLE_REPORTS_ADMIN" ∈ effective_principals req)
     && is_user_admin_on_layer req (layer_id rm)
     && principal_in (authenticated_userid req) (effective_principals req).

End Handling.

(** The status line the client sees: the two HTTP exceptions have their own
    status, any other exception is an internal server error. *)
Definition http_status (o : outcome Response) : Z :=
  match o with
  | Returns response => status_code response
  | Raises HTTPNotFound => 404
  | Raises HTTPForbidden => 403
  | Raises _ => 500
  end.

(** ** The ACL rule matcher *)

Module Rule.

(** Modelled from the spec: the class [Rule] of [drealcorsereports.security]
    is not among the sources.  A rule has a mode, a layer pattern and the
    principals configured for it; a pattern is the wildcard or a layer
    name; a configured principal is the distinguished "anyone" or a named
    one.  [match_] holds when the pattern matches the layer, the mode grants
    access and some configured principal is one of the caller's (anyone is
    everybody's).  The spec does not say which modes grant access: that is
    left to [grants_access]. *)
Inductive pattern :=
| any_layer
| layer_named (n : string).

Inductive principal :=
| anyone
| named (p : string).

Record t := mk {
  mode : string;
  layer : pattern;
  principals : list principal;
}.

Definition layer_matches (p : pattern) (layer_name : string) : bool :=
  match p with
  | any_layer => true
  | layer_named n => bool_decide (n = layer_name)
  end.

Definition held_by (effective_principals : list string) (p : principal) : bool :=
  match p with
  | anyone => true
  | named s => bool_decide (s ∈ effective_principals)
  end.

Definition match_ (grants_access : string → bool) (self : t)
    (layer_name : string) (effective_principals : list string) : bool :=
  layer_matches (layer self) layer_name
  && grants_access (mode self)
  && existsb (held_by effective_principals) (principals self).

(** Membership of a configured principal in a caller's effective set. *)
Definition member (p : principal) (effective_principals : list string) : Prop :=
  match p with
  | anyone => True
  | named s => s ∈ effective_principals
  end.

End Rule.

(** The rest of what [get_layers] takes from [drealcorsereports.security]:
    [Rule.parse], from an entry of the ACL document to a rule, and the modes
    that grant access. *)
Class Security := {
  Rule_parse : string → string → Rule.t;
  grants_access : string → bool;
}.

(** ** The layer listing service *)

(** An entry of [layers["layers"]["layer"]]. *)
Record Layer := mkLayer {
  layer_name : string;
  href : string;
}.

(** A response of the map server: its status and its body decoded as the
    expected document, [None] where [json()] or a subscript would raise. *)
Record RemoteResponse (A : Type) := mkRemoteResponse {
  remote_status : Z;
  remote_json : option A;
}.
Arguments remote_status {A} _.
Arguments remote_json {A} _.

(** What the map server answers to the two calls of [get_layers]:
    [/rest/layers.json] and the ACL document, a dictionary whose items are
    listed in document order. *)
Record Geoserver := mkGeoserver {
  layers_json : RemoteResponse (list Layer);
  layers_acl : RemoteResponse (list (string * string));
}.

(** [requests.Response.raise_for_status]: client and server errors raise. *)
Definition raise_for_status {A} (r : RemoteResponse A) : outcome unit :=
  if (400 <=? remote_status r) && (remote_status r <? 600)
  then Raises (HTTPError (remote_status r))
  else Returns tt.

(** [requests.Response.json] *)
Definition json {A} (r : RemoteResponse A) : outcome A :=
  match remote_json r with
  | Some document => Returns document
  | None => Raises JSONDecodeError
  end.

(** Modelled from the spec: [get_geoserver_layers_acl]
    ([drealcorsereports.security]) is not among the sources.  The spec has a
    non-2xx response of the remote ACL call propagate as a failure. *)
Definition get_geoserver_layers_acl (r : RemoteResponse (list (string * string)))
    : outcome (list (string * string)) :=
  if (200 <=? remote_status r) && (remote_status r <? 300)
  then json r
  else Raises (HTTPError (remote_status r)).

Section Layers.
Context `{Security}.

(** The two nested loops of [get_layers]: the name of a layer is appended
    for each rule that matches it. *)
Definition authorized_layers (layers : list Layer)
    (layer_rules_json : list (string * string))
    (effective_principals : list string) : list string :=
  fold_left
    (λ authorized layer,
       fold_left
         (λ authorized layer_rules,
            let rule := Rule_parse layer_rules.1 layer_rules.2 in
            if Rule.match_ grants_access rule (layer_name layer) effective_principals
            then authorized ++ [layer_name layer]
            else authorized)
         layer_rules_json authorized)
    layers [].

(** [get_layers] *)
Definition get_layers (req : Request) (geoserver : Geoserver)
    : outcome (list string) :=
  _ ← raise_for_status (layers_json geoserver);
  layers ← json (layers_json geoserver);
  layer_rules_json ← get_geoserver_layers_acl (layers_acl geoserver);
  Returns (authorized_layers layers layer_rules_json (effective_principals req)).

(** A layer is authorized when some entry of the ACL document parses to a
    rule that matches its name for the caller. *)
Definition authorized (layer_rules_json : list (string * string))
    (effective_principals : list string) (layer : Layer) : Prop :=
  ∃ layer_rules, layer_rules ∈ layer_rules_json
    ∧ Rule.match_ grants_access (Rule_parse layer_rules.1 layer_rules.2)
        (layer_name layer) effective_principals = true.

End Layers.

(** ** Test doubles and test data *)

(** [uuid.UUID] on the canonical form: thirty-two hexadecimal digits,
    hyphens skipped.  Strings of any other length are rejected, as the
    constructor does. *)
Fixpoint hex_digits (s : string) : nat :=
  match s with
  | EmptyString => 0%nat
  | String c s' =>
      if bool_decide (c = "-"%char) then hex_digits s' else S (hex_digits s')
  end.

Fixpoint hex_value (s : string) (acc : N) : option N :=
  match s with
  | EmptyString => Some acc
  | String c s' =>
      if bool_decide (c = "-"%char) then hex_value s' acc
      else d ← HexString.ascii_to_digit c; hex_value s' (16 * acc + d)%N
  end.

Definition canonical_UUID (s : string) : option N :=
  if bool_decide (hex_digits s = 32%nat) then hex_value s 0%N else None.

(** The patch of the test suite: whoever asks administers [ALLOWED_LAYER]
    and nothing else. *)
Definition ALLOWED_LAYER : string := "ALLOWED_LAYER".
Definition DENIED_LAYER : string := "DENIED_LAYER".
Definition USER_ADMIN : string := "USER_ADMIN".
Definition ROLE_REPORTS_ADMIN : string := "ROLE_REPORTS_ADMIN".

Definition test_environment : Environment :=
  {| UUID := canonical_UUID;
     is_user_admin_on_layer := λ _ layer, bool_decide (layer = ALLOWED_LAYER);
     tjs_view_name := name |}.

(** The two rows of the fixture [test_data]. *)
Definition existing_allowed : ReportModel :=
  {| id_ := 1%N; name := "existing_allowed"; layer_id := ALLOWED_LAYER;
     custom_field_schema := "{test: test}";
     created_by := Some "toto"; created_at := 1611322380;
     updated_by := Some "tata"; updated_at := 1611322440 |}.

Definition existing_denied : ReportModel :=
  {| id_ := 2%N; name := "existing_denied"; layer_id := DENIED_LAYER;
     custom_field_schema := "{test: test}";
     created_by := Some "toto"; created_at := 1611322380;
     updated_by := Some "tata"; updated_at := 1611322440 |}.

Definition test_data : gmap N ReportModel :=
  <[1%N := existing_allowed]> (<[2%N := existing_denied]> ∅).

Definition id_allowed : string := "00000000-0000-0000-0000-000000000001".
Definition id_denied : string := "00000000-0000-0000-0000-000000000002".
Definition id_unknown : string := "00000000-0000-0000-0000-0000000000ff".

Definition post_payload (layer : string) : Payload :=
  {| body_name := "new"; body_layer_id := layer;
     body_custom_field_schema := "{test: test}" |}.

Definition put_payload (layer : string) : Payload :=
  {| body_name := "updated"; body_layer_id := layer;
     body_custom_field_schema := "{changed: changed}" |}.

(** A request with the headers [sec-username] and [sec-roles] of the
    tests; the framework adds its two system principals. *)
Definition test_request (m : Method) (r : Route) (username : string)
    (roles : list string) (data : Payload) : Request :=
  {| method := m; route := r;
     authenticated_userid := Some username;
     effective_principals :=
       "system.Everyone" :: "system.Authenticated" :: username :: roles;
     json_body := data; now := 1700000000; uuid4 := 3%N |}.

(** Name uniqueness of a store. *)
Definition unique_names (dbsession : gmap N ReportModel) : Prop :=
  ∀ i j rm rm', dbsession !! i = Some rm → dbsession !! j = Some rm' →
    name rm = name rm' → i = j.

(** A response that reports success. *)
Definition successful (response : Response) : Prop :=
  200 ≤ status_code response < 300.

(** A rule parser for running [get_layers]: the key is the mode, every
    layer matches, the value is the one configured principal; every mode
    grants access. *)
Definition test_security : Security :=
  {| Rule_parse := λ k v,
       {| Rule.mode := k; Rule.layer := Rule.any_layer;
          Rule.principals := [Rule.named v] |};
     grants_access := λ _, true |}.

Definition test_layers : list Layer :=
  [ {| layer_name := "roads"; href := "/rest/layers/roads.json" |} ].

Definition test_rules : list (string * string) :=
  [ ("r", "ROLE_REPORTS_ADMIN"); ("w", "ROLE_REPORTS_ADMIN") ].

Definition test_geoserver (layers_status acl_status : Z) : Geoserver :=
  {| layers_json := {| remote_status := layers_status;
                       remote_json := Some test_layers |};
     layers_acl := {| remote_status := acl_status;
                      remote_json := Some test_rules |} |}.

(** The row that [test_collection_post_success] creates. *)
Definition created_row : ReportModel :=
  {| id_ := 3%N; name := "new"; layer_id := ALLOWED_LAYER;
     custom_field_schema := "{test: test}";
     created_by := Some USER_ADMIN; created_at := 1700000000;
     updated_by := Some USER_ADMIN; updated_at := 1700000000 |}.

(** The row that [test_put_success] leaves. *)
Definition updated_row : ReportModel :=
  {| id_ := 1%N; name := "updated"; layer_id := ALLOWED_LAYER;
     custom_field_schema := "{changed: changed}";
     created_by := Some "toto"; created_at := 1611322380;
     updated_by := Some "ANOTHER_USER"; updated_at := 1700000000 |}.

(** Closed decidable facts are settled by evaluation. *)
Ltac evaluate := apply (bool_decide_unpack _); vm_compute; exact I.

(** A rule parser that reads the key of an entry as the name of the layer
    and its value as the one configured principal; every mode grants
    access. *)
Definition security_by_layer : Security :=
  {| Rule_parse := λ k v,
       {| Rule.mode := "r"; Rule.layer := Rule.layer_named k;
          Rule.principals := [Rule.named v] |};
     grants_access := λ _, true |}.

Definition two_layers : list Layer :=
  [ {| layer_name := "roads"; href := "/rest/layers/roads.json" |};
    {| layer_name := "rivers"; href := "/rest/layers/rivers.json" |} ].

Definition rules_by_layer : list (string * string) :=
  [ ("roads", "ROLE_REPORTS_ADMIN"); ("roads", "ROLE_OTHER");
    ("rivers", "ROLE_REPORTS_ADMIN"); ("lakes", "ROLE_REPORTS_ADMIN") ].

(** * Properties *)

(** ** The context factory and the ACL *)

Section ViewFacts.
Context `{Environment}.
Import AdminReportModelView.

Lemma init_with_id req id :
  matchdict_get_id req = Some id → id ≠ "" →
  __init__ req =
    match UUID id with
    | Some u => Returns {| request := req; report_models_id := Some u |}
    | None => Raises ValueError
    end.
Proof.
  intros Hid Hne. unfold __init__. rewrite Hid. simpl.
  by rewrite bool_decide_eq_false_2.
Qed.

Lemma init_collection req :
  route req = report_models_collection →
  __init__ req = Returns {| request := req; report_models_id := None |}.
Proof. intros Hr. unfold __init__, matchdict_get_id. by rewrite Hr. Qed.

Lemma acl_without_id self dbsession :
  report_models_id self = None → __acl__ self dbsession = Returns static_acl.
Proof. intros Hid. unfold __acl__. by rewrite Hid. Qed.

Lemma acl_without_role self dbsession :
  "ROLE_REPORTS_ADMIN" ∉ effective_principals (request self) →
  __acl__ self dbsession = Returns static_acl.
Proof.
  intros Hrole. unfold __acl__.
  rewrite (bool_decide_eq_false_2 _ Hrole). by rewrite andb_false_r.
Qed.

Lemma acl_missing self dbsession u :
  report_models_id self = Some u → dbsession !! u = None →
  "ROLE_REPORTS_ADMIN" ∈ effective_principals (request self) →
  __acl__ self dbsession = Raises HTTPNotFound.
Proof.
  intros Hid Hu Hrole. unfold __acl__, get_object.
  rewrite Hid, (bool_decide_eq_true_2 _ Hrole). simpl. by rewrite Hu.
Qed.

Lemma acl_existing self dbsession u rm :
  report_models_id self = Some u → dbsession !! u = Some rm →
  __acl__ self dbsession =
    Returns (if bool_decide ("ROLE_REPORTS_ADMIN" ∈ effective_principals (request self))
                && is_user_admin_on_layer (request self) (layer_id rm)
             then static_acl ++ [dynamic_ace (request self)]
             else static_acl).
Proof.
  intros Hid Hu. unfold __acl__, get_object. rewrite Hid. simpl. rewrite Hu.
  case_bool_decide; simpl; [|done].
  by destruct (is_user_admin_on_layer _ _).
Qed.

Lemma dynamic_ace_not_static req : dynamic_ace req ∉ static_acl.
Proof.
  unfold dynamic_ace, static_acl. intros Hin.
  repeat (apply elem_of_cons in Hin as [Heq | Hin]; [by inversion Heq |]).
  by apply elem_of_nil in Hin.
Qed.

(** What the static entries grant. *)
Lemma permits_static principals permission :
  permits static_acl principals permission =
    bool_decide ("ROLE_REPORTS_ADMIN" ∈ principals)
      && bool_decide (permission ∈ ["list"; "add"; "view"])
    || bool_decide ("ROLE_SUPERUSER" ∈ principals)
      && bool_decide (permission ∈ ["list"; "add"; "view"; "edit"; "delete"]).
Proof.
  unfold static_acl. simpl.
  repeat (case_bool_decide; simpl); done.
Qed.

End ViewFacts.

(** ** Requests that address a row *)

Section ItemRequests.
Context `{Environment}.
Import AdminReportModelView.

Lemma matchdict_of_item req id :
  route req = report_models_item id ∨ route req = tjs_views id →
  matchdict_get_id req = Some id.
Proof. unfold matchdict_get_id. by intros [-> | ->]. Qed.

Lemma dispatch_raises_in_factory req dbsession e :
  __init__ req = Raises e → handle req dbsession = (Raises e, dbsession).
Proof. intros Hinit. unfold handle, dispatch. by rewrite Hinit. Qed.

(** A view with a permission raises what the ACL raises. *)
Lemma secured_raises permission context dbsession view e :
  __acl__ context dbsession = Raises e →
  secured permission context dbsession view = Raises e.
Proof. intros Hacl. unfold secured. by rewrite Hacl. Qed.

Lemma secured_returns permission context dbsession view acl :
  __acl__ context dbsession = Returns acl →
  secured permission context dbsession view =
    if permits acl (effective_principals (request context)) permission
    then view else Raises HTTPForbidden.
Proof. intros Hacl. unfold secured. by rewrite Hacl. Qed.

(** C10: a request to [/report_models/{id}] (or to its [tjs_view]) whose id
    segment [uuid.UUID] rejects fails in the constructor of the view, which
    is the context factory and runs before any view is looked up: the
    request ends in an unhandled [ValueError], an internal server error,
    with the store as it was, whatever the method and the principals. *)
Theorem unparseable_id_is_internal_error req dbsession id :
  route req = report_models_item id ∨ route req = tjs_views id →
  id ≠ "" →
  UUID id = None →
  __init__ req = Raises ValueError
  ∧ handle req dbsession = (Raises ValueError, dbsession)
  ∧ http_status (handle req dbsession).1 = 500.
Proof.
  intros Hroute Hne Hparse.
  assert (__init__ req = Raises ValueError) as Hinit.
  { rewrite (init_with_id req id); [by rewrite Hparse | | done].
    by apply matchdict_of_item. }
  split; [done |].
  by rewrite (dispatch_raises_in_factory _ _ _ Hinit).
Qed.

(** The context of a request that addresses a row by a well-formed id. *)
Lemma init_item req id u :
  route req = report_models_item id ∨ route req = tjs_views id →
  id ≠ "" →
  UUID id = Some u →
  __init__ req = Returns {| request := req; report_models_id := Some u |}.
Proof.
  intros Hroute Hne Hparse.
  rewrite (init_with_id req id); [by rewrite Hparse | | done].
  by apply matchdict_of_item.
Qed.

(** Every view of the two routes with a permission raises what the ACL of
    its context raises. *)
Lemma dispatch_acl_raises req dbsession id context e :
  (route req = report_models_item id ∧ method req ∈ [GET; PUT; DELETE])
  ∨ (route req = tjs_views id ∧ method req = POST) →
  __init__ req = Returns context →
  __acl__ context dbsession = Raises e →
  dispatch req dbsession = Raises e.
Proof.
  intros Hroute Hinit Hacl. unfold dispatch. rewrite Hinit. simpl.
  destruct Hroute as [[-> Hmethod] | [-> ->]].
  - apply elem_of_cons in Hmethod as [-> | Hmethod];
      [by apply secured_raises |].
    apply elem_of_cons in Hmethod as [-> | Hmethod];
      [by apply secured_raises |].
    apply list_elem_of_singleton in Hmethod as ->.
    by apply secured_raises.
  - by apply secured_raises.
Qed.

(** C9, as the code has it: for GET, PUT, DELETE on [/report_models/{id}]
    and POST on its [tjs_view], by a principal that holds
    ROLE_REPORTS_ADMIN, with an id that [uuid.UUID] accepts and that is the
    key of no row: computing the ACL fetches the row and raises not-found,
    so the request ends in 404 (never 403) and the store is as it was. *)
Theorem missing_id_is_not_found req dbsession id u :
  (route req = report_models_item id ∧ method req ∈ [GET; PUT; DELETE])
  ∨ (route req = tjs_views id ∧ method req = POST) →
  id ≠ "" →
  UUID id = Some u →
  dbsession !! u = None →
  "ROLE_REPORTS_ADMIN" ∈ effective_principals req →
  (∃ context, __init__ req = Returns context
              ∧ __acl__ context dbsession = Raises HTTPNotFound)
  ∧ handle req dbsession = (Raises HTTPNotFound, dbsession)
  ∧ http_status (handle req dbsession).1 = 404.
Proof.
  intros Hroute Hne Hparse Hmissing Hrole.
  set (context := {| request := req; report_models_id := Some u |}).
  assert (__init__ req = Returns context) as Hinit.
  { apply (init_item req id); [tauto | done ..]. }
  assert (__acl__ context dbsession = Raises HTTPNotFound) as Hacl
    by by apply (acl_missing _ _ u).
  split; [by exists context |].
  unfold handle.
  by rewrite (dispatch_acl_raises _ _ _ _ _ Hroute Hinit Hacl).
Qed.

End ItemRequests.

(** ** The dynamic layer-admin grant *)

Section LayerAdmin.
Context `{Environment}.
Import AdminReportModelView.

Lemma handle_dispatch req dbsession response dbsession' :
  dispatch req dbsession = Returns (response, dbsession') →
  handle req dbsession = (Returns response, dbsession').
Proof. intros Hd. unfold handle. by rewrite Hd. Qed.

Lemma handle_dispatch_raises req dbsession e :
  dispatch req dbsession = Raises e →
  handle req dbsession = (Raises e, dbsession).
Proof. intros Hd. unfold handle. by rewrite Hd. Qed.

(** C1, as the code has it: for a request to [/report_models/{id}] whose id
    is the key of a row, the ACL has the dynamic entry (edit and delete for
    the authenticated user) exactly when the principals include
    ROLE_REPORTS_ADMIN and the layer-admin check holds for the layer of the
    row.  A principal with ROLE_REPORTS_ADMIN and without ROLE_SUPERUSER
    for whom the check fails gets the row on GET and 403 on PUT and DELETE.
    The ACL reads nothing of the row but its layer, so the creator has no
    standing of its own. *)
Theorem acl_dynamic_grant req dbsession id u rm :
  route req = report_models_item id →
  id ≠ "" →
  UUID id = Some u →
  dbsession !! u = Some rm →
  ∃ context acl,
    __init__ req = Returns context
    ∧ __acl__ context dbsession = Returns acl
    ∧ (dynamic_ace req ∈ acl ↔
         "ROLE_REPORTS_ADMIN" ∈ effective_principals req
         ∧ is_user_admin_on_layer req (layer_id rm) = true)
    ∧ ("ROLE_REPORTS_ADMIN" ∈ effective_principals req →
       "ROLE_SUPERUSER" ∉ effective_principals req →
       is_user_admin_on_layer req (layer_id rm) = false →
         (method req = GET →
            handle req dbsession
            = (Returns {| status_code := 200; body := Dump rm |}, dbsession))
         ∧ (method req = PUT ∨ method req = DELETE →
            handle req dbsession = (Raises HTTPForbidden, dbsession)))
    ∧ (∀ rm', layer_id rm' = layer_id rm →
         __acl__ context (<[u := rm']> dbsession) = Returns acl).
Proof.
  intros Hroute Hne Hparse Hrow.
  set (context := {| request := req; report_models_id := Some u |}).
  assert (__init__ req = Returns context) as Hinit.
  { rewrite (init_with_id req id); [by rewrite Hparse | | done].
    apply matchdict_of_item. by left. }
  set (acl := if bool_decide ("ROLE_REPORTS_ADMIN" ∈ effective_principals req)
                 && is_user_admin_on_layer req (layer_id rm)
              then static_acl ++ [dynamic_ace req] else static_acl).
  assert (__acl__ context dbsession = Returns acl) as Hacl
    by exact (acl_existing context dbsession u rm eq_refl Hrow).
  exists context, acl. split; [done |]. split; [exact Hacl |].
  split; [| split].
  - unfold acl. case_bool_decide as Hrole; cbn [andb].
    + destruct (is_user_admin_on_layer req (layer_id rm)) eqn:Hadmin.
      * split; [done |]. intros _. apply elem_of_app. right.
        by apply list_elem_of_singleton.
      * split; [| by intros [_ ?]].
        intros Hin. by apply dynamic_ace_not_static in Hin.
    + split; [| by intros [? _]].
      intros Hin. by apply dynamic_ace_not_static in Hin.
  - intros Hrole Hsuper Hadmin.
    assert (acl = static_acl) as Hstatic
      by (unfold acl; by rewrite Hadmin, andb_false_r).
    rewrite Hstatic in Hacl.
    split.
    + intros Hmethod. apply handle_dispatch. unfold dispatch.
      rewrite Hinit. simpl. rewrite Hroute, Hmethod.
      rewrite (secured_returns _ _ _ _ _ Hacl), permits_static.
      rewrite (bool_decide_eq_true_2 _ Hrole). simpl.
      unfold get, get_object. simpl. by rewrite Hrow.
    + intros Hmethod. apply handle_dispatch_raises. unfold dispatch.
      rewrite Hinit. simpl. rewrite Hroute.
      destruct Hmethod as [-> | ->];
        rewrite (secured_returns _ _ _ _ _ Hacl), permits_static;
        rewrite (bool_decide_eq_false_2 _ Hsuper);
        by rewrite andb_false_r.
  - intros rm' Hlayer. unfold acl. rewrite <- Hlayer.
    exact (acl_existing context _ u rm' eq_refl (lookup_insert_eq _ _ _)).
Qed.

End LayerAdmin.

(** ** Validation of the submitted layer *)

Section Validation.
Context `{Environment}.
Import AdminReportModelView.

Lemma init_request req context :
  __init__ req = Returns context → request context = req.
Proof.
  unfold __init__. intros Hinit.
  repeat case_match; simplify_eq; done.
Qed.

Lemma validator_rejects_layer self dbsession :
  is_user_admin_on_layer (request self)
    (body_layer_id (json_body (request self))) = false →
  ∃ errors, marshmallow_validator self dbsession = inl errors
            ∧ layer_id_error (body_layer_id (json_body (request self))) ∈ errors.
Proof.
  intros Hadmin. unfold marshmallow_validator. rewrite Hadmin.
  destruct (name_exists _ _ _); simpl; eexists; (split; [done |]);
    set_solver.
Qed.

(** C3, as the code has it: a create or update request that passes the
    permission check of its view and whose body names a layer the acting
    principal does not administer is answered 400 by the validator, with a
    field error on [layer_id], and the store is as it was. *)
Theorem not_layer_admin_is_field_error req dbsession :
  (route req = report_models_collection ∧ method req = POST
   ∧ permitted "add" req dbsession)
  ∨ ((∃ id, route req = report_models_item id) ∧ method req = PUT
     ∧ permitted "edit" req dbsession) →
  is_user_admin_on_layer req (body_layer_id (json_body req)) = false →
  ∃ errors,
    handle req dbsession
    = (Returns {| status_code := 400; body := Errors errors |}, dbsession)
    ∧ layer_id_error (body_layer_id (json_body req)) ∈ errors
    ∧ http_status (handle req dbsession).1 = 400.
Proof.
  intros Hreq Hadmin.
  assert (∃ permission context acl,
            __init__ req = Returns context
            ∧ __acl__ context dbsession = Returns acl
            ∧ permits acl (effective_principals req) permission = true
            ∧ dispatch req dbsession
              = secured permission context dbsession
                  (validated_by context dbsession
                     (match method req with
                      | POST => collection_post context dbsession
                      | _ => put context dbsession
                      end)))
    as (permission & context & acl & Hinit & Hacl & Hpermits & Hdispatch).
  { destruct Hreq as [(Hroute & Hmethod & Hperm) | ([id Hroute] & Hmethod & Hperm)];
      destruct Hperm as (context & acl & Hinit & Hacl & Hpermits);
      eexists _, context, acl; (repeat split; [done .. |]);
      unfold dispatch; rewrite Hinit; simpl; by rewrite Hroute, Hmethod. }
  pose proof (init_request _ _ Hinit) as Hrequest.
  destruct (validator_rejects_layer context dbsession) as (errors & Hv & Hin).
  { by rewrite Hrequest. }
  rewrite Hrequest in Hin.
  assert (dispatch req dbsession
          = Returns ({| status_code := 400; body := Errors errors |}, dbsession))
    as Hd.
  { rewrite Hdispatch, (secured_returns _ _ _ _ _ Hacl), Hrequest, Hpermits.
    unfold validated_by. by rewrite Hv. }
  exists errors. rewrite (handle_dispatch _ _ _ _ Hd). done.
Qed.

End Validation.

(** ** Deleting a row *)

Section Deleting.
Context `{Environment}.
Import AdminReportModelView.

(** GET and DELETE of an id that is the key of no row, by a principal with
    one of the two roles: not found, from the ACL for ROLE_REPORTS_ADMIN and
    from [get_object] in the view otherwise. *)
Lemma item_missing req dbsession id u :
  route req = report_models_item id →
  method req = GET ∨ method req = DELETE →
  id ≠ "" →
  UUID id = Some u →
  dbsession !! u = None →
  "ROLE_REPORTS_ADMIN" ∈ effective_principals req
  ∨ "ROLE_SUPERUSER" ∈ effective_principals req →
  handle req dbsession = (Raises HTTPNotFound, dbsession).
Proof.
  intros Hroute Hmethod Hne Hparse Hmissing Hrole.
  set (context := {| request := req; report_models_id := Some u |}).
  assert (__init__ req = Returns context) as Hinit
    by (apply (init_item req id); auto).
  apply handle_dispatch_raises.
  destruct (decide ("ROLE_REPORTS_ADMIN" ∈ effective_principals req))
    as [Hadmin | Hadmin].
  { apply (dispatch_acl_raises _ _ id context); [| done |].
    - left. split; [done |].
      destruct Hmethod as [-> | ->]; rewrite !elem_of_cons; auto.
    - by apply (acl_missing _ _ u). }
  assert ("ROLE_SUPERUSER" ∈ effective_principals req) as Hsuper by tauto.
  assert (__acl__ context dbsession = Returns static_acl) as Hacl
    by by apply acl_without_role.
  unfold dispatch. rewrite Hinit. simpl. rewrite Hroute.
  destruct Hmethod as [-> | ->];
    rewrite (secured_returns _ _ _ _ _ Hacl), permits_static;
    rewrite (bool_decide_eq_true_2 _ Hsuper); simpl;
    rewrite orb_true_r; unfold get, delete, get_object; simpl;
    by rewrite Hmissing.
Qed.

(** C6, as the code has it: DELETE of a well-formed id.  When the id is the
    key of no row and the principal holds ROLE_REPORTS_ADMIN or
    ROLE_SUPERUSER, the answer is not-found and the store is as it was.
    When it is the key of a row and the request passes the permission check
    for delete, the answer is 204 and the store is the old one without that
    key; a GET of the same id by a principal with one of the two roles is
    then answered not-found. *)
Theorem delete_removes_or_not_found req dbsession id u :
  route req = report_models_item id →
  method req = DELETE →
  id ≠ "" →
  UUID id = Some u →
  (dbsession !! u = None →
   "ROLE_REPORTS_ADMIN" ∈ effective_principals req
   ∨ "ROLE_SUPERUSER" ∈ effective_principals req →
     handle req dbsession = (Raises HTTPNotFound, dbsession)
     ∧ http_status (handle req dbsession).1 = 404)
  ∧ (is_Some (dbsession !! u) →
     permitted "delete" req dbsession →
       handle req dbsession
       = (Returns {| status_code := 204; body := NoBody |},
          base.delete u dbsession)
       ∧ ∀ req',
           route req' = report_models_item id →
           method req' = GET →
           "ROLE_REPORTS_ADMIN" ∈ effective_principals req'
           ∨ "ROLE_SUPERUSER" ∈ effective_principals req' →
           handle req' (base.delete u dbsession)
           = (Raises HTTPNotFound, base.delete u dbsession)).
Proof.
  intros Hroute Hmethod Hne Hparse. split.
  - intros Hmissing Hrole.
    rewrite (item_missing req dbsession id u); auto.
  - intros [rm Hrow] (context & acl & Hinit & Hacl & Hpermits). split.
    + assert (context = {| request := req; report_models_id := Some u |})
        as Hcontext.
      { rewrite (init_item req id u) in Hinit; [congruence | auto ..]. }
      apply handle_dispatch. unfold dispatch. rewrite Hinit. simpl.
      rewrite Hroute, Hmethod.
      rewrite (secured_returns _ _ _ _ _ Hacl), (init_request _ _ Hinit),
        Hpermits.
      unfold delete, get_object, session_delete. rewrite Hcontext. simpl.
      by rewrite Hrow.
    + intros req' Hroute' Hmethod' Hrole'.
      apply (item_missing req' _ id u); auto.
      apply lookup_delete_eq.
Qed.

End Deleting.

(** ** Creating and updating rows *)

Section Writing.
Context `{Environment}.
Import AdminReportModelView.

(** What the create view does, stage by stage. *)
Lemma dispatch_create req dbsession :
  route req = report_models_collection →
  method req = POST →
  let self := {| request := req; report_models_id := None |} in
  dispatch req dbsession =
    if permits static_acl (effective_principals req) "add" then
      match marshmallow_validator self dbsession with
      | inl errors =>
          Returns ({| status_code := 400; body := Errors errors |}, dbsession)
      | inr validated => collection_post self dbsession validated
      end
    else Raises HTTPForbidden.
Proof.
  intros Hroute Hmethod self. unfold dispatch.
  rewrite (init_collection _ Hroute). simpl. rewrite Hroute, Hmethod.
  by rewrite (secured_returns _ self _ _ static_acl (acl_without_id self _ eq_refl)).
Qed.

(** What the update view does once the context is made and its ACL is
    computed. *)
Lemma dispatch_update req dbsession id self acl :
  route req = report_models_item id →
  method req = PUT →
  __init__ req = Returns self →
  __acl__ self dbsession = Returns acl →
  dispatch req dbsession =
    if permits acl (effective_principals req) "edit" then
      match marshmallow_validator self dbsession with
      | inl errors =>
          Returns ({| status_code := 400; body := Errors errors |}, dbsession)
      | inr validated => put self dbsession validated
      end
    else Raises HTTPForbidden.
Proof.
  intros Hroute Hmethod Hinit Hacl. unfold dispatch.
  rewrite Hinit. simpl. rewrite Hroute, Hmethod.
  by rewrite (secured_returns _ _ _ _ _ Hacl), (init_request _ _ Hinit).
Qed.

Lemma validator_loads self dbsession validated :
  marshmallow_validator self dbsession = inr validated →
  validated = load_instance dbsession (report_models_id self)
                (json_body (request self))
  ∧ name_exists dbsession (report_models_id self)
      (body_name (json_body (request self))) = false
  ∧ is_user_admin_on_layer (request self)
      (body_layer_id (json_body (request self))) = true.
Proof.
  unfold marshmallow_validator.
  destruct (name_exists _ _ _), (is_user_admin_on_layer _ _); simpl;
    intros Hv; by simplify_eq.
Qed.

(** C7: a create that reports success is answered 201 with a row whose
    [created_by] and [updated_by] are the authenticated user, and that row
    is what the store gains; an update that reports success is answered
    with a row whose [updated_by] is the authenticated user and whose
    [updated_at] is the clock of the request, that row is stored under the
    addressed key, and no row of the store has its [created_by] or
    [created_at] changed. *)
Theorem audit_fields req dbsession response dbsession' :
  handle req dbsession = (Returns response, dbsession') →
  successful response →
  (route req = report_models_collection → method req = POST →
     status_code response = 201
     ∧ ∃ row, body response = Dump row
         ∧ created_by row = authenticated_userid req
         ∧ updated_by row = authenticated_userid req
         ∧ dbsession !! uuid4 req = None
         ∧ dbsession' = <[uuid4 req := row]> dbsession)
  ∧ (∀ id, route req = report_models_item id → method req = PUT →
     status_code response = 200
     ∧ ∃ u row, UUID id = Some u
         ∧ body response = Dump row
         ∧ updated_by row = authenticated_userid req
         ∧ updated_at row = now req
         ∧ dbsession' = <[u := row]> dbsession
         ∧ ∀ i rm, dbsession !! i = Some rm →
             ∃ rm', dbsession' !! i = Some rm'
                    ∧ created_by rm' = created_by rm
                    ∧ created_at rm' = created_at rm).
Proof.
  unfold handle, successful. intros Hhandle Hok.
  destruct (dispatch req dbsession) as [[response0 dbsession0] | e] eqn:Hd;
    [| done].
  injection Hhandle as -> ->. split.
  - intros Hroute Hmethod.
    rewrite (dispatch_create _ _ Hroute Hmethod) in Hd.
    destruct (permits _ _ _); [| done].
    destruct (marshmallow_validator _ _) as [errors | validated].
    { injection Hd as <- _. simpl in Hok. lia. }
    unfold collection_post, add_flush in Hd. simpl in Hd.
    destruct (dbsession !! uuid4 req) eqn:Hfresh; [done |].
    simpl in Hd. injection Hd as <- <-. simpl. eauto 10.
  - intros id Hroute Hmethod.
    destruct (__init__ req) as [self | e] eqn:Hinit;
      [| unfold dispatch in Hd; by rewrite Hinit in Hd].
    destruct (__acl__ self dbsession) as [acl | e] eqn:Hacl.
    2: { rewrite (dispatch_acl_raises req dbsession id self e) in Hd;
           [done | | done ..].
         left. split; [done |]. rewrite Hmethod, !elem_of_cons. auto. }
    rewrite (dispatch_update _ _ _ _ _ Hroute Hmethod Hinit Hacl) in Hd.
    destruct (permits _ _ _); [| done].
    destruct (marshmallow_validator _ _) as [errors | validated] eqn:Hv.
    { injection Hd as <- _. simpl in Hok. lia. }
    apply validator_loads in Hv as (-> & _ & _).
    unfold put, get_object, write_back, load_instance in Hd.
    rewrite (init_request _ _ Hinit) in Hd.
    destruct (report_models_id self) as [u |] eqn:Hid; [| done].
    simpl in Hd. destruct (dbsession !! u) as [rm |] eqn:Hrow; [| done].
    simpl in Hd. injection Hd as <- <-.
    assert (UUID id = Some u) as Hparse.
    { unfold __init__ in Hinit.
      rewrite (matchdict_of_item req id) in Hinit by auto.
      simpl in Hinit. repeat case_match; simplify_eq; done. }
    split; [done |].
    eexists u, _. split; [done |]. split; [done |].
    split; [done |]. split; [done |]. split; [done |].
    intros i rm0 Hrow0. destruct (decide (i = u)) as [-> | Hne].
    + rewrite lookup_insert_eq. eexists. split; [done |].
      simplify_eq. done.
    + rewrite lookup_insert_ne by done. eauto.
Qed.

End Writing.

(** ** Name uniqueness *)

Section Names.
Context `{Environment}.
Import AdminReportModelView.

Lemma name_exists_true dbsession instance n :
  name_exists dbsession instance n = true ↔
  ∃ i rm, dbsession !! i = Some rm ∧ name rm = n ∧ Some i ≠ instance.
Proof.
  unfold name_exists. rewrite bool_decide_eq_true. unfold map_Exists.
  naive_solver.
Qed.

Lemma name_exists_false dbsession instance n :
  name_exists dbsession instance n = false ↔
  ∀ i rm, dbsession !! i = Some rm → name rm = n → Some i = instance.
Proof.
  rewrite <- not_true_iff_false, name_exists_true. split.
  - intros Hnone i rm Hrow Hname.
    destruct (decide (Some i = instance)) as [| Hne]; [done |].
    destruct Hnone. eauto.
  - intros Hall (i & rm & Hrow & Hname & Hne). eauto.
Qed.

Lemma unique_names_insert dbsession u row :
  unique_names dbsession →
  name_exists dbsession (Some u) (name row) = false →
  unique_names (<[u := row]> dbsession).
Proof.
  rewrite name_exists_false. intros Huniq Hfree i j rm rm' Hi Hj Hname.
  apply lookup_insert_Some in Hi as [[<- <-] | [Hiu Hi]];
    apply lookup_insert_Some in Hj as [[<- <-] | [Hju Hj]]; try done.
  - specialize (Hfree j rm' Hj (eq_sym Hname)). congruence.
  - specialize (Hfree i rm Hi Hname). congruence.
  - eauto.
Qed.

Lemma unique_names_delete dbsession u :
  unique_names dbsession → unique_names (base.delete u dbsession).
Proof.
  intros Huniq i j rm rm' Hi Hj.
  apply lookup_delete_Some in Hi as [_ Hi].
  apply lookup_delete_Some in Hj as [_ Hj]. eauto.
Qed.

Lemma name_exists_weaken dbsession u n :
  name_exists dbsession None n = false →
  name_exists dbsession (Some u) n = false.
Proof.
  rewrite !name_exists_false. intros Hfree i rm Hrow Hname.
  by specialize (Hfree i rm Hrow Hname).
Qed.

(** What a create that returns has done. *)
Lemma create_returns req dbsession response dbsession' :
  route req = report_models_collection →
  method req = POST →
  dispatch req dbsession = Returns (response, dbsession') →
  (∃ errors, response = {| status_code := 400; body := Errors errors |}
             ∧ dbsession' = dbsession)
  ∨ (∃ row, response = {| status_code := 201; body := Dump row |}
            ∧ name row = body_name (json_body req)
            ∧ name_exists dbsession None (name row) = false
            ∧ dbsession !! uuid4 req = None
            ∧ dbsession' = <[uuid4 req := row]> dbsession).
Proof.
  intros Hroute Hmethod Hd.
  rewrite (dispatch_create _ _ Hroute Hmethod) in Hd.
  destruct (permits _ _ _); [| done].
  destruct (marshmallow_validator _ _) as [errors | validated] eqn:Hv.
  { left. injection Hd as <- <-. eauto. }
  apply validator_loads in Hv as (-> & Hfree & _). simpl in Hfree.
  unfold collection_post, add_flush in Hd. simpl in Hd.
  destruct (dbsession !! uuid4 req) eqn:Hfresh; [done |].
  simpl in Hd. injection Hd as <- <-. right. eexists.
  split; [done |]. simpl. done.
Qed.

(** What an update that returns has done. *)
Lemma update_returns req dbsession id response dbsession' :
  route req = report_models_item id →
  method req = PUT →
  dispatch req dbsession = Returns (response, dbsession') →
  dbsession' = dbsession
  ∨ (∃ u row, name_exists dbsession (Some u) (name row) = false
              ∧ dbsession' = <[u := row]> dbsession).
Proof.
  intros Hroute Hmethod Hd.
  destruct (__init__ req) as [self | e] eqn:Hinit;
    [| unfold dispatch in Hd; by rewrite Hinit in Hd].
  destruct (__acl__ self dbsession) as [acl | e] eqn:Hacl.
  2: { rewrite (dispatch_acl_raises req dbsession id self e) in Hd;
         [done | | done ..].
       left. split; [done |]. rewrite Hmethod, !elem_of_cons. auto. }
  rewrite (dispatch_update _ _ _ _ _ Hroute Hmethod Hinit Hacl) in Hd.
  destruct (permits _ _ _); [| done].
  destruct (marshmallow_validator _ _) as [errors | validated] eqn:Hv.
  { left. by injection Hd as _ <-. }
  apply validator_loads in Hv as (-> & Hfree & _).
  unfold put, get_object, write_back in Hd.
  destruct (report_models_id self) as [u |] eqn:Hid; [| done].
  simpl in Hd. destruct (dbsession !! u) as [rm |] eqn:Hrow; [| done].
  simpl in Hd. injection Hd as _ <-. right. eexists u, _.
  split; [| done]. simpl. unfold load_instance. simpl. by rewrite Hrow.
Qed.

(** Every request leaves the names of the store unique. *)
Lemma handle_unique_names req dbsession :
  unique_names dbsession → unique_names (handle req dbsession).2.
Proof.
  intros Huniq. unfold handle.
  destruct (dispatch req dbsession) as [[response dbsession'] | e] eqn:Hd;
    [| done].
  simpl. destruct (route req) as [| id | id] eqn:Hroute,
    (method req) eqn:Hmethod.
  all: try (destruct (create_returns _ _ _ _ Hroute Hmethod Hd)
              as [(errors & _ & ->) | (row & _ & _ & Hfree & _ & ->)];
            [done | by apply unique_names_insert, name_exists_weaken]).
  all: try (destruct (update_returns _ _ _ _ _ Hroute Hmethod Hd)
              as [-> | (u & row & Hfree & ->)];
            [done | by apply unique_names_insert]).
  all: unfold dispatch in Hd;
    destruct (__init__ req) as [self | e] eqn:Hinit; [| done];
    simpl in Hd; rewrite Hroute, Hmethod in Hd; unfold secured in Hd;
    try (destruct (__acl__ self dbsession) as [acl | e]; [| done];
         simpl in Hd; destruct (permits _ _ _); [| done]).
  all: try (by injection Hd as _ <-).
  all: unfold get, delete, post_tjs_view, session_delete in Hd;
    destruct (get_object self dbsession); [| done]; simpl in Hd;
    injection Hd as _ <-;
    first [ done
          | destruct (report_models_id self);
              [by apply unique_names_delete | done] ].
Qed.

(** C4, as the code has it: after a create that was answered 201, a second
    create with the same name is answered 400 with a field error on [name]
    when its principal holds ROLE_REPORTS_ADMIN or ROLE_SUPERUSER, and 403
    when it holds neither; either way the store is as the first create left
    it.  Every request leaves the names of the store unique. *)
Theorem second_create_same_name req1 req2 dbsession response1 dbsession1 :
  route req1 = report_models_collection → method req1 = POST →
  route req2 = report_models_collection → method req2 = POST →
  body_name (json_body req2) = body_name (json_body req1) →
  handle req1 dbsession = (Returns response1, dbsession1) →
  status_code response1 = 201 →
  ("ROLE_REPORTS_ADMIN" ∈ effective_principals req2
   ∨ "ROLE_SUPERUSER" ∈ effective_principals req2 →
     ∃ errors,
       handle req2 dbsession1
       = (Returns {| status_code := 400; body := Errors errors |}, dbsession1)
       ∧ name_error (body_name (json_body req2)) ∈ errors)
  ∧ ("ROLE_REPORTS_ADMIN" ∉ effective_principals req2 →
     "ROLE_SUPERUSER" ∉ effective_principals req2 →
       handle req2 dbsession1 = (Raises HTTPForbidden, dbsession1))
  ∧ (handle req2 dbsession1).2 = dbsession1
  ∧ (∀ req dbsession0,
       unique_names dbsession0 → unique_names (handle req dbsession0).2).
Proof.
  intros Hroute1 Hmethod1 Hroute2 Hmethod2 Hname Hhandle Hstatus.
  unfold handle in Hhandle.
  destruct (dispatch req1 dbsession) as [[response dbsession'] | e] eqn:Hd;
    [| done].
  injection Hhandle as -> ->.
  destruct (create_returns _ _ _ _ Hroute1 Hmethod1 Hd)
    as [(errors & -> & _) | (row & _ & Hrow & _ & _ & ->)]; [done |].
  assert (name_exists (<[uuid4 req1 := row]> dbsession) None
            (body_name (json_body req2)) = true) as Htaken.
  { apply name_exists_true. exists (uuid4 req1), row.
    rewrite lookup_insert_eq. split; [done |]. split; [congruence | done]. }
  pose proof (dispatch_create req2 (<[uuid4 req1 := row]> dbsession)
                Hroute2 Hmethod2) as Hd2.
  cbv zeta in Hd2. rewrite permits_static in Hd2.
  unfold marshmallow_validator in Hd2.
  cbn [request report_models_id] in Hd2. rewrite Htaken in Hd2.
  cbn [app] in Hd2.
  assert (("ROLE_REPORTS_ADMIN" ∈ effective_principals req2
           ∨ "ROLE_SUPERUSER" ∈ effective_principals req2 →
           ∃ errors,
             handle req2 (<[uuid4 req1 := row]> dbsession)
             = (Returns {| status_code := 400; body := Errors errors |},
                <[uuid4 req1 := row]> dbsession)
             ∧ name_error (body_name (json_body req2)) ∈ errors)
          ∧ ("ROLE_REPORTS_ADMIN" ∉ effective_principals req2 →
             "ROLE_SUPERUSER" ∉ effective_principals req2 →
             handle req2 (<[uuid4 req1 := row]> dbsession)
             = (Raises HTTPForbidden, <[uuid4 req1 := row]> dbsession)))
    as [Hbad Hforbidden].
  { split.
    - intros Hrole. eexists. split.
      + apply handle_dispatch. rewrite Hd2.
        destruct Hrole as [Hrole | Hrole];
          rewrite (bool_decide_eq_true_2 _ Hrole); simpl;
          by rewrite ?orb_true_r.
      + apply elem_of_cons. by left.
    - intros Hadmin Hsuper. apply handle_dispatch_raises. rewrite Hd2.
      rewrite (bool_decide_eq_false_2 _ Hadmin),
        (bool_decide_eq_false_2 _ Hsuper). done. }
  split; [done |]. split; [done |]. split.
  - destruct (decide ("ROLE_REPORTS_ADMIN" ∈ effective_principals req2))
      as [Hadmin | Hadmin];
      [destruct Hbad as (errors & -> & _); auto |].
    destruct (decide ("ROLE_SUPERUSER" ∈ effective_principals req2))
      as [Hsuper | Hsuper];
      [destruct Hbad as (errors & -> & _); auto |].
    by rewrite Hforbidden.
  - intros req dbsession0. apply handle_unique_names.
Qed.

End Names.

(** ** The rule matcher and the layer listing *)

(** C2: [Rule.match_] is true exactly when the layer pattern of the rule
    matches the layer name, its mode grants access, and one of its
    configured principals is a member of the caller's effective principals
    (the "anyone" principal is a member of every such set). *)
Theorem rule_match_iff grants (rule : Rule.t) layer_name
    (effective_principals : list string) :
  Rule.match_ grants rule layer_name effective_principals = true ↔
  Rule.layer_matches (Rule.layer rule) layer_name = true
  ∧ grants (Rule.mode rule) = true
  ∧ ∃ p, p ∈ Rule.principals rule ∧ Rule.member p effective_principals.
Proof.
  unfold Rule.match_. rewrite !andb_true_iff, existsb_exists.
  split.
  - intros [[Hlayer Hmode] (p & Hin & Hheld)]. repeat split; try done.
    exists p. split; [by apply list_elem_of_In |].
    destruct p; simpl in *; [done | by apply bool_decide_eq_true in Hheld].
  - intros (Hlayer & Hmode & p & Hin & Hmember). repeat split; try done.
    exists p. split; [by apply list_elem_of_In |].
    destruct p; simpl in *; [done | by apply bool_decide_eq_true].
Qed.

Section LayerListing.
Context `{Security}.

(** The inner loop appends the name once for each matching entry. *)
Lemma rules_loop layer layer_rules_json principals authorized0 :
  fold_left
    (λ authorized layer_rules,
       if Rule.match_ grants_access
            (Rule_parse layer_rules.1 layer_rules.2) (layer_name layer)
            principals
       then authorized ++ [layer_name layer] else authorized)
    layer_rules_json authorized0
  = authorized0
    ++ ((λ _, layer_name layer) <$>
        filter (λ layer_rules,
                  Rule.match_ grants_access
                    (Rule_parse layer_rules.1 layer_rules.2)
                    (layer_name layer) principals = true)
               layer_rules_json).
Proof.
  revert authorized0.
  induction layer_rules_json as [| layer_rules rest IH]; intros authorized0;
    simpl.
  - by rewrite app_nil_r.
  - rewrite IH, filter_cons.
    destruct (Rule.match_ _ _ _ _) eqn:Hmatch.
    + rewrite decide_True by done. by rewrite <- app_assoc.
    + by rewrite decide_False by done.
Qed.

Lemma layers_loop_from layers layer_rules_json principals authorized0 :
  fold_left
    (λ authorized layer,
       fold_left
         (λ authorized layer_rules,
            if Rule.match_ grants_access
                 (Rule_parse layer_rules.1 layer_rules.2) (layer_name layer)
                 principals
            then authorized ++ [layer_name layer] else authorized)
         layer_rules_json authorized)
    layers authorized0
  = authorized0
    ++ (layer ← layers;
        (λ _, layer_name layer) <$>
          filter (λ layer_rules,
                    Rule.match_ grants_access
                      (Rule_parse layer_rules.1 layer_rules.2)
                      (layer_name layer) principals = true)
                 layer_rules_json).
Proof.
  revert authorized0.
  induction layers as [| layer rest IH]; intros authorized0; simpl.
  - by rewrite app_nil_r.
  - rewrite rules_loop, IH. by rewrite <- app_assoc.
Qed.

Lemma layers_loop layers layer_rules_json principals :
  authorized_layers layers layer_rules_json principals
  = layer ← layers;
    (λ _, layer_name layer) <$>
      filter (λ layer_rules,
                Rule.match_ grants_access
                  (Rule_parse layer_rules.1 layer_rules.2)
                  (layer_name layer) principals = true)
             layer_rules_json.
Proof. unfold authorized_layers. cbv zeta. by rewrite layers_loop_from. Qed.

Lemma elem_of_authorized_layers layers layer_rules_json principals n :
  n ∈ authorized_layers layers layer_rules_json principals ↔
  ∃ layer, layer ∈ layers ∧ layer_name layer = n
           ∧ authorized layer_rules_json principals layer.
Proof.
  rewrite layers_loop, list_elem_of_bind. unfold authorized. split.
  - intros (layer & Hn & Hlayer).
    apply list_elem_of_fmap in Hn as (layer_rules & -> & Hrule).
    apply list_elem_of_filter in Hrule as [Hmatch Hrule]. eauto 10.
  - intros (layer & Hlayer & <- & layer_rules & Hrule & Hmatch).
    exists layer. split; [| done].
    apply list_elem_of_fmap. exists layer_rules. split; [done |].
    by apply list_elem_of_filter.
Qed.

(** C5: when the map server answers both calls (no client or server error
    for the layer list, a 2xx for the ACL document, both bodies readable),
    [get_layers] returns a list whose names are exactly those of the
    authorized layers: a name is returned only for an authorized layer,
    the name of every authorized layer is returned, and the name of a layer
    that no rule matches is not. *)
Theorem layers_are_the_authorized_ones req geoserver layers layer_rules_json :
  ¬ 400 ≤ remote_status (layers_json geoserver) < 600 →
  remote_json (layers_json geoserver) = Some layers →
  200 ≤ remote_status (layers_acl geoserver) < 300 →
  remote_json (layers_acl geoserver) = Some layer_rules_json →
  ∃ names,
    get_layers req geoserver = Returns names
    ∧ (∀ n, n ∈ names →
         ∃ layer, layer ∈ layers ∧ layer_name layer = n
           ∧ authorized layer_rules_json (effective_principals req) layer)
    ∧ (∀ layer, layer ∈ layers →
         authorized layer_rules_json (effective_principals req) layer →
         layer_name layer ∈ names)
    ∧ (∀ layer, layer ∈ layers →
         ¬ authorized layer_rules_json (effective_principals req) layer →
         layer_name layer ∉ names).
Proof.
  intros Hlayers_status Hlayers Hacl_status Hacl.
  exists (authorized_layers layers layer_rules_json (effective_principals req)).
  split.
  - unfold get_layers, raise_for_status, get_geoserver_layers_acl, json.
    replace ((400 <=? remote_status (layers_json geoserver))
             && (remote_status (layers_json geoserver) <? 600)) with false
      by (symmetry; apply andb_false_iff; lia).
    replace ((200 <=? remote_status (layers_acl geoserver))
             && (remote_status (layers_acl geoserver) <? 300)) with true
      by (symmetry; apply andb_true_iff; lia).
    simpl. rewrite Hlayers. simpl. by rewrite Hacl.
  - split; [| split].
    + intros n Hn. by apply elem_of_authorized_layers.
    + intros layer Hlayer Hauth. apply elem_of_authorized_layers. eauto.
    + intros layer Hlayer Hnone Hn.
      apply elem_of_authorized_layers in Hn
        as (layer' & _ & Hname & layer_rules & Hrule & Hmatch).
      apply Hnone. exists layer_rules. by rewrite <- Hname.
Qed.

(** C8, as the code has it: a client or server error status of the layer
    list call makes [get_layers] raise the HTTP error of that call, and so
    does, once the layer list is read, a status of the ACL call outside
    2xx. *)
Theorem upstream_errors_propagate req geoserver :
  (400 ≤ remote_status (layers_json geoserver) < 600 →
     get_layers req geoserver
     = Raises (HTTPError (remote_status (layers_json geoserver))))
  ∧ (¬ 400 ≤ remote_status (layers_json geoserver) < 600 →
     is_Some (remote_json (layers_json geoserver)) →
     ¬ 200 ≤ remote_status (layers_acl geoserver) < 300 →
     get_layers req geoserver
     = Raises (HTTPError (remote_status (layers_acl geoserver)))).
Proof.
  unfold get_layers, raise_for_status, get_geoserver_layers_acl, json.
  split.
  - intros Hstatus.
    replace ((400 <=? remote_status (layers_json geoserver))
             && (remote_status (layers_json geoserver) <? 600)) with true
      by (symmetry; apply andb_true_iff; lia).
    done.
  - intros Hstatus [layers Hlayers] Hacl.
    replace ((400 <=? remote_status (layers_json geoserver))
             && (remote_status (layers_json geoserver) <? 600)) with false
      by (symmetry; apply andb_false_iff; lia).
    replace ((200 <=? remote_status (layers_acl geoserver))
             && (remote_status (layers_acl geoserver) <? 300)) with false
      by (symmetry; apply andb_false_iff; lia).
    simpl. by rewrite Hlayers.
Qed.

End LayerListing.

(** * The properties on the data of the test suite *)

Section Tests.
#[local] Existing Instance test_environment.
#[local] Existing Instance test_security.
Import AdminReportModelView.

(** [test_get_not_found] with a malformed id: the constructor raises. *)
Lemma unparseable_id_witness :
  handle (test_request GET (report_models_item "abc") USER_ADMIN
            [ROLE_REPORTS_ADMIN] (post_payload ALLOWED_LAYER)) test_data
  = (Raises ValueError, test_data).
Proof.
  apply (unparseable_id_is_internal_error _ test_data "abc");
    [by left | done | reflexivity].
Defined.

(** [test_delete_not_found] *)
Lemma missing_id_witness :
  handle (test_request DELETE (report_models_item id_unknown) USER_ADMIN
            [ROLE_REPORTS_ADMIN] (post_payload ALLOWED_LAYER)) test_data
  = (Raises HTTPNotFound, test_data).
Proof.
  apply (missing_id_is_not_found _ test_data id_unknown 255%N).
  - left. split; [done | evaluate].
  - done.
  - reflexivity.
  - reflexivity.
  - evaluate.
Defined.

(** A reports admin asks to delete an id that [uuid.UUID] rejects: the id
    is the key of no row, and the answer is an internal error, not 404. *)
Lemma malformed_id_is_not_answered_not_found :
  let req := test_request DELETE (report_models_item "not-a-uuid") USER_ADMIN
               [ROLE_REPORTS_ADMIN] (post_payload ALLOWED_LAYER) in
  "ROLE_REPORTS_ADMIN" ∈ effective_principals req
  ∧ UUID "not-a-uuid" = None
  ∧ handle req test_data = (Raises ValueError, test_data)
  ∧ http_status (handle req test_data).1 = 500
  ∧ http_status (handle req test_data).1 ≠ 404.
Proof.
  cbv zeta. split; [evaluate |]. repeat split; try reflexivity.
  vm_compute. discriminate.
Qed.

(** [test_get_success] and [test_put_forbidden], [test_delete_forbidden] on
    the row of the denied layer. *)
Lemma acl_dynamic_grant_witness :
  handle (test_request GET (report_models_item id_denied) USER_ADMIN
            [ROLE_REPORTS_ADMIN] (post_payload ALLOWED_LAYER)) test_data
  = (Returns {| status_code := 200; body := Dump existing_denied |}, test_data)
  ∧ handle (test_request DELETE (report_models_item id_denied) USER_ADMIN
              [ROLE_REPORTS_ADMIN] (post_payload ALLOWED_LAYER)) test_data
    = (Raises HTTPForbidden, test_data).
Proof.
  split.
  - destruct (acl_dynamic_grant
                (test_request GET (report_models_item id_denied) USER_ADMIN
                   [ROLE_REPORTS_ADMIN] (post_payload ALLOWED_LAYER))
                test_data id_denied 2%N existing_denied)
      as (context & acl & _ & _ & _ & Hdenied & _);
      [reflexivity | done | reflexivity | reflexivity |].
    apply Hdenied; [evaluate | | reflexivity | reflexivity].
    intros Hin. apply (bool_decide_pack _) in Hin. vm_compute in Hin.
    exact Hin.
  - destruct (acl_dynamic_grant
                (test_request DELETE (report_models_item id_denied) USER_ADMIN
                   [ROLE_REPORTS_ADMIN] (post_payload ALLOWED_LAYER))
                test_data id_denied 2%N existing_denied)
      as (context & acl & _ & _ & _ & Hdenied & _);
      [reflexivity | done | reflexivity | reflexivity |].
    apply Hdenied; [evaluate | | reflexivity | by right].
    intros Hin. apply (bool_decide_pack _) in Hin. vm_compute in Hin.
    exact Hin.
Defined.

(** A user who administers the layer of a row but does not hold
    ROLE_REPORTS_ADMIN: the ACL is the static one, without the dynamic
    entry; and a user with no role on the row of a layer they do not
    administer is refused the GET. *)
Lemma layer_admin_without_role_gets_no_grant :
  let req := test_request GET (report_models_item id_allowed) "someone" []
               (post_payload ALLOWED_LAYER) in
  let req' := test_request GET (report_models_item id_denied) "someone" []
                (post_payload ALLOWED_LAYER) in
  test_data !! 1%N = Some existing_allowed
  ∧ is_user_admin_on_layer req (layer_id existing_allowed) = true
  ∧ __init__ req = Returns {| request := req; report_models_id := Some 1%N |}
  ∧ __acl__ {| request := req; report_models_id := Some 1%N |} test_data
    = Returns static_acl
  ∧ (dynamic_ace req ∉ static_acl)
  ∧ is_user_admin_on_layer req' (layer_id existing_denied) = false
  ∧ handle req' test_data = (Raises HTTPForbidden, test_data).
Proof.
  cbv zeta. repeat split; try reflexivity.
  apply dynamic_ace_not_static.
Qed.

(** [test_put_not_layer_admin] *)
Lemma not_layer_admin_witness :
  ∃ errors,
    handle (test_request PUT (report_models_item id_allowed) USER_ADMIN
              [ROLE_REPORTS_ADMIN] (put_payload DENIED_LAYER)) test_data
    = (Returns {| status_code := 400; body := Errors errors |}, test_data)
    ∧ layer_id_error DENIED_LAYER ∈ errors
    ∧ http_status
        (handle (test_request PUT (report_models_item id_allowed) USER_ADMIN
                   [ROLE_REPORTS_ADMIN] (put_payload DENIED_LAYER))
           test_data).1 = 400.
Proof.
  apply (not_layer_admin_is_field_error
           (test_request PUT (report_models_item id_allowed) USER_ADMIN
              [ROLE_REPORTS_ADMIN] (put_payload DENIED_LAYER)) test_data);
    [| reflexivity].
  right. split; [by exists id_allowed |]. split; [done |].
  eexists _, _. split; [reflexivity |]. split; reflexivity.
Defined.

(** An update of the row of the denied layer whose body names the denied
    layer as well: refused by the permission check, not by the validator. *)
Lemma not_layer_admin_update_is_forbidden :
  let req := test_request PUT (report_models_item id_denied) USER_ADMIN
               [ROLE_REPORTS_ADMIN] (put_payload DENIED_LAYER) in
  is_user_admin_on_layer req (body_layer_id (json_body req)) = false
  ∧ handle req test_data = (Raises HTTPForbidden, test_data)
  ∧ http_status (handle req test_data).1 = 403.
Proof. cbv zeta. repeat split; reflexivity. Qed.

Lemma create_succeeds :
  handle (test_request POST report_models_collection USER_ADMIN
            [ROLE_REPORTS_ADMIN] (post_payload ALLOWED_LAYER)) test_data
  = (Returns {| status_code := 201; body := Dump created_row |},
     <[3%N := created_row]> test_data).
Proof. reflexivity. Qed.

(** [test_collection_post_name_unique_validator] *)
Lemma second_create_witness :
  ∃ errors,
    handle (test_request POST report_models_collection USER_ADMIN
              [ROLE_REPORTS_ADMIN] (post_payload ALLOWED_LAYER))
      (<[3%N := created_row]> test_data)
    = (Returns {| status_code := 400; body := Errors errors |},
       <[3%N := created_row]> test_data)
    ∧ name_error "new" ∈ errors.
Proof.
  destruct (second_create_same_name
              (test_request POST report_models_collection USER_ADMIN
                 [ROLE_REPORTS_ADMIN] (post_payload ALLOWED_LAYER))
              (test_request POST report_models_collection USER_ADMIN
                 [ROLE_REPORTS_ADMIN] (post_payload ALLOWED_LAYER))
              test_data _ _ eq_refl eq_refl eq_refl eq_refl eq_refl
              create_succeeds eq_refl) as (Hrejected & _).
  apply Hrejected. left. evaluate.
Defined.

(** A second create with the same name by a principal without a role is
    refused by the permission check: 403, and no field error on the name. *)
Lemma second_create_without_role_is_forbidden :
  let req1 := test_request POST report_models_collection USER_ADMIN
                [ROLE_REPORTS_ADMIN] (post_payload ALLOWED_LAYER) in
  let req2 := test_request POST report_models_collection "someone" []
                (post_payload ALLOWED_LAYER) in
  ∃ response1,
    handle req1 test_data = (Returns response1, (handle req1 test_data).2)
    ∧ status_code response1 = 201
    ∧ body_name (json_body req2) = body_name (json_body req1)
    ∧ handle req2 (handle req1 test_data).2
      = (Raises HTTPForbidden, (handle req1 test_data).2)
    ∧ http_status (handle req2 (handle req1 test_data).2).1 = 403.
Proof. cbv zeta. eexists. repeat split; reflexivity. Qed.

(** [test_delete_not_found] and [test_delete_success] *)
Lemma delete_witness :
  handle (test_request DELETE (report_models_item id_unknown) USER_ADMIN
            [ROLE_REPORTS_ADMIN] (post_payload ALLOWED_LAYER)) test_data
  = (Raises HTTPNotFound, test_data)
  ∧ handle (test_request DELETE (report_models_item id_allowed) USER_ADMIN
              [ROLE_REPORTS_ADMIN] (post_payload ALLOWED_LAYER)) test_data
    = (Returns {| status_code := 204; body := NoBody |},
       base.delete 1%N test_data).
Proof.
  split.
  - destruct (delete_removes_or_not_found
                (test_request DELETE (report_models_item id_unknown) USER_ADMIN
                   [ROLE_REPORTS_ADMIN] (post_payload ALLOWED_LAYER))
                test_data id_unknown 255%N eq_refl eq_refl)
      as [Hmissing _]; [done | reflexivity |].
    apply Hmissing; [reflexivity |]. left. evaluate.
  - destruct (delete_removes_or_not_found
                (test_request DELETE (report_models_item id_allowed) USER_ADMIN
                   [ROLE_REPORTS_ADMIN] (post_payload ALLOWED_LAYER))
                test_data id_allowed 1%N eq_refl eq_refl)
      as [_ Hexisting]; [done | reflexivity |].
    apply Hexisting; [by eexists |].
    eexists _, _. split; [reflexivity |]. split; reflexivity.
Defined.

(** [test_delete_forbidden]: the row exists and stays, the answer is 403;
    and a principal without a role gets 403, not 404, for an unknown id. *)
Lemma delete_is_forbidden :
  let req := test_request DELETE (report_models_item id_denied) USER_ADMIN
               [ROLE_REPORTS_ADMIN] (post_payload ALLOWED_LAYER) in
  let req' := test_request DELETE (report_models_item id_unknown) "someone" []
                (post_payload ALLOWED_LAYER) in
  UUID id_denied = Some 2%N
  ∧ test_data !! 2%N = Some existing_denied
  ∧ handle req test_data = (Raises HTTPForbidden, test_data)
  ∧ http_status (handle req test_data).1 = 403
  ∧ UUID id_unknown = Some 255%N
  ∧ test_data !! 255%N = None
  ∧ handle req' test_data = (Raises HTTPForbidden, test_data)
  ∧ http_status (handle req' test_data).1 = 403.
Proof. cbv zeta. repeat split; reflexivity. Qed.

Lemma update_succeeds :
  handle (test_request PUT (report_models_item id_allowed) "ANOTHER_USER"
            [ROLE_REPORTS_ADMIN] (put_payload ALLOWED_LAYER)) test_data
  = (Returns {| status_code := 200; body := Dump updated_row |},
     <[1%N := updated_row]> test_data).
Proof. reflexivity. Qed.

(** [test_collection_post_success] and [test_put_success] *)
Lemma audit_fields_witness :
  (∃ row, created_by row = Some USER_ADMIN ∧ updated_by row = Some USER_ADMIN
          ∧ <[3%N := created_row]> test_data = <[3%N := row]> test_data)
  ∧ (∃ u row, updated_by row = Some "ANOTHER_USER"
              ∧ updated_at row = 1700000000
              ∧ <[1%N := updated_row]> test_data = <[u := row]> test_data).
Proof.
  split.
  - destruct (audit_fields _ _ _ _ create_succeeds) as [Hcreate _];
      [unfold successful; simpl; lia |].
    destruct (Hcreate eq_refl eq_refl)
      as (_ & row & _ & Hcreated & Hupdated & _ & Hstore).
    exists row. auto.
  - destruct (audit_fields _ _ _ _ update_succeeds) as [_ Hupdate];
      [unfold successful; simpl; lia |].
    destruct (Hupdate id_allowed eq_refl eq_refl)
      as (_ & u & row & _ & _ & Hby & Hat & Hstore & _).
    exists u, row. auto.
Defined.

(** Both entries of the ACL document match the layer for a reports admin:
    its name is listed, once for each of them. *)
Lemma get_layers_lists_a_name_per_rule :
  get_layers (test_request GET report_models_collection USER_ADMIN
                [ROLE_REPORTS_ADMIN] (post_payload ALLOWED_LAYER))
    (test_geoserver 200 200)
  = Returns ["roads"; "roads"].
Proof. reflexivity. Qed.

Lemma layers_witness :
  ∃ names,
    get_layers (test_request GET report_models_collection USER_ADMIN
                  [ROLE_REPORTS_ADMIN] (post_payload ALLOWED_LAYER))
      (test_geoserver 200 200) = Returns names
    ∧ "roads" ∈ names.
Proof.
  destruct (layers_are_the_authorized_ones
              (test_request GET report_models_collection USER_ADMIN
                 [ROLE_REPORTS_ADMIN] (post_payload ALLOWED_LAYER))
              (test_geoserver 200 200) test_layers test_rules)
    as (names & Hreturns & _ & Hlisted & _);
    [simpl; lia | reflexivity | simpl; lia | reflexivity |].
  exists names. split; [done |].
  apply (Hlisted {| layer_name := "roads"; href := "/rest/layers/roads.json" |});
    [apply list_elem_of_singleton; reflexivity |].
  exists ("r", "ROLE_REPORTS_ADMIN"). split; [evaluate | reflexivity].
Defined.

(** A server error of the layer list call, and a not-found of the ACL
    call. *)
Lemma upstream_errors_witness :
  get_layers (test_request GET report_models_collection USER_ADMIN
                [ROLE_REPORTS_ADMIN] (post_payload ALLOWED_LAYER))
    (test_geoserver 503 200) = Raises (HTTPError 503)
  ∧ get_layers (test_request GET report_models_collection USER_ADMIN
                  [ROLE_REPORTS_ADMIN] (post_payload ALLOWED_LAYER))
      (test_geoserver 200 404) = Raises (HTTPError 404).
Proof.
  split.
  - apply (upstream_errors_propagate _ (test_geoserver 503 200)). simpl. lia.
  - apply (upstream_errors_propagate _ (test_geoserver 200 404));
      [simpl; lia | by eexists | simpl; lia].
Defined.

(** A layer list call answered 300 with a readable body: [raise_for_status]
    lets it pass and the layers are listed. *)
Lemma redirection_status_is_not_raised :
  let geoserver := test_geoserver 300 200 in
  ¬ 200 ≤ remote_status (layers_json geoserver) < 300
  ∧ get_layers (test_request GET report_models_collection USER_ADMIN
                  [ROLE_REPORTS_ADMIN] (post_payload ALLOWED_LAYER)) geoserver
    = Returns ["roads"; "roads"].
Proof. cbv zeta. split; [simpl; lia | reflexivity]. Qed.

(** ** The remaining cases of the test suite, run on the model *)

Example test_collection_get_forbidden :
  handle (test_request GET report_models_collection USER_ADMIN []
            (post_payload ALLOWED_LAYER)) test_data
  = (Raises HTTPForbidden, test_data).
Proof. reflexivity. Qed.

(** The query has no ordering; the rows come in the order of the map. *)
Example test_collection_get_success :
  handle (test_request GET report_models_collection USER_ADMIN
            [ROLE_REPORTS_ADMIN] (post_payload ALLOWED_LAYER)) test_data
  = (Returns {| status_code := 200;
                body := DumpAll [existing_denied; existing_allowed] |},
     test_data).
Proof. reflexivity. Qed.

Example test_collection_post_forbidden :
  handle (test_request POST report_models_collection USER_ADMIN []
            (post_payload ALLOWED_LAYER)) test_data
  = (Raises HTTPForbidden, test_data).
Proof. reflexivity. Qed.

Example test_collection_post_not_layer_admin :
  handle (test_request POST report_models_collection USER_ADMIN
            [ROLE_REPORTS_ADMIN] (post_payload DENIED_LAYER)) test_data
  = (Returns {| status_code := 400;
                body := Errors [layer_id_error DENIED_LAYER] |}, test_data).
Proof. reflexivity. Qed.

Example test_get_forbidden :
  handle (test_request GET (report_models_item id_allowed) USER_ADMIN []
            (post_payload ALLOWED_LAYER)) test_data
  = (Raises HTTPForbidden, test_data).
Proof. reflexivity. Qed.

Example test_get_success :
  handle (test_request GET (report_models_item id_allowed) USER_ADMIN
            [ROLE_REPORTS_ADMIN] (post_payload ALLOWED_LAYER)) test_data
  = (Returns {| status_code := 200; body := Dump existing_allowed |},
     test_data).
Proof. reflexivity. Qed.

Example test_put_forbidden :
  handle (test_request PUT (report_models_item id_allowed) USER_ADMIN []
            (put_payload ALLOWED_LAYER)) test_data
  = (Raises HTTPForbidden, test_data)
  ∧ handle (test_request PUT (report_models_item id_denied) USER_ADMIN
              [ROLE_REPORTS_ADMIN] (put_payload ALLOWED_LAYER)) test_data
    = (Raises HTTPForbidden, test_data).
Proof. split; reflexivity. Qed.

Example test_put_not_found :
  handle (test_request PUT (report_models_item id_unknown) USER_ADMIN
            [ROLE_REPORTS_ADMIN] (put_payload ALLOWED_LAYER)) test_data
  = (Raises HTTPNotFound, test_data).
Proof. reflexivity. Qed.

(** A superuser who is not a reports admin and addresses an unknown id
    reaches the validator, and then [get_object] in the view. *)
Example superuser_update_of_unknown_id :
  handle (test_request PUT (report_models_item id_unknown) "root"
            ["ROLE_SUPERUSER"] (put_payload DENIED_LAYER)) test_data
  = (Returns {| status_code := 400;
                body := Errors [layer_id_error DENIED_LAYER] |}, test_data)
  ∧ handle (test_request PUT (report_models_item id_unknown) "root"
              ["ROLE_SUPERUSER"] (put_payload ALLOWED_LAYER)) test_data
    = (Raises HTTPNotFound, test_data).
Proof. split; reflexivity. Qed.

End Tests.

(** * Further properties of the views *)

(** ** What the ACL of a row grants *)

Section Access.
Context `{Environment}.
Import AdminReportModelView.

(** The static entries come first and only allow, so the dynamic entry adds
    to them. *)
Lemma permits_with_dynamic req principals permission :
  permits (static_acl ++ [dynamic_ace req]) principals permission
  = permits static_acl principals permission
    || principal_in (authenticated_userid req) principals
       && bool_decide (permission ∈ ["edit"; "delete"]).
Proof.
  unfold static_acl, dynamic_ace. simpl.
  destruct (principal_in (authenticated_userid req) principals);
    repeat (case_bool_decide; simpl); done.
Qed.

(** The decision of the policy for a request that addresses a stored row. *)
Lemma permits_row context dbsession u rm permission :
  report_models_id context = Some u →
  dbsession !! u = Some rm →
  ∃ acl,
    __acl__ context dbsession = Returns acl
    ∧ permits acl (effective_principals (request context)) permission
      = permits static_acl (effective_principals (request context)) permission
        || bool_decide ("ROLE_REPORTS_ADMIN"
                        ∈ effective_principals (request context))
           && is_user_admin_on_layer (request context) (layer_id rm)
           && principal_in (authenticated_userid (request context))
                (effective_principals (request context))
           && bool_decide (permission ∈ ["edit"; "delete"]).
Proof.
  intros Hid Hrow. eexists. split; [by apply (acl_existing _ _ u rm) |].
  destruct (bool_decide _ && is_user_admin_on_layer _ _) eqn:Hgrant.
  - rewrite permits_with_dynamic. done.
  - by rewrite orb_false_r.
Qed.

End Access.

(** ** Who may do what *)

Section Permissions.
Context `{Environment}.
Import AdminReportModelView.

Lemma forbidden_without_role permission context dbsession view :
  "ROLE_REPORTS_ADMIN" ∉ effective_principals (request context) →
  "ROLE_SUPERUSER" ∉ effective_principals (request context) →
  secured permission context dbsession view = Raises HTTPForbidden.
Proof.
  intros Hadmin Hsuper.
  rewrite (secured_returns _ _ _ _ _ (acl_without_role _ _ Hadmin)),
    permits_static.
  by rewrite (bool_decide_eq_false_2 _ Hadmin),
    (bool_decide_eq_false_2 _ Hsuper).
Qed.

(** X1: A principal that holds neither ROLE_REPORTS_ADMIN nor ROLE_SUPERUSER is
    refused by every view of the three routes, whatever the store holds and
    whatever the layer-admin check would say: the dynamic entry is only
    ever added for a reports admin. *)
Theorem no_role_is_forbidden req dbsession context :
  __init__ req = Returns context →
  "ROLE_REPORTS_ADMIN" ∉ effective_principals req →
  "ROLE_SUPERUSER" ∉ effective_principals req →
  (route req = report_models_collection ∧ method req ∈ [GET; POST])
  ∨ ((∃ id, route req = report_models_item id)
     ∧ method req ∈ [GET; PUT; DELETE])
  ∨ ((∃ id, route req = tjs_views id) ∧ method req = POST) →
  handle req dbsession = (Raises HTTPForbidden, dbsession)
  ∧ http_status (handle req dbsession).1 = 403.
Proof.
  intros Hinit Hadmin Hsuper Hview.
  pose proof (init_request _ _ Hinit) as Hrequest.
  rewrite <- Hrequest in Hadmin, Hsuper.
  assert (dispatch req dbsession = Raises HTTPForbidden) as Hd.
  { unfold dispatch. rewrite Hinit. simpl.
    destruct Hview as [[-> Hmethod] | [[[id ->] Hmethod] | [[id ->] ->]]].
    - rewrite !elem_of_cons, elem_of_nil in Hmethod.
      destruct Hmethod as [-> | [-> | []]];
        by apply forbidden_without_role.
    - rewrite !elem_of_cons, elem_of_nil in Hmethod.
      destruct Hmethod as [-> | [-> | [-> | []]]];
        by apply forbidden_without_role.
    - by apply forbidden_without_role. }
  by rewrite (handle_dispatch_raises _ _ _ Hd).
Qed.

(** X2: GET [/report_models] by a principal with one of the two roles: 200 with
    exactly the rows of the store, each once, and the store as it was. *)
Theorem collection_get_lists_the_store req dbsession :
  route req = report_models_collection →
  method req = GET →
  "ROLE_REPORTS_ADMIN" ∈ effective_principals req
  ∨ "ROLE_SUPERUSER" ∈ effective_principals req →
  ∃ rms,
    handle req dbsession
    = (Returns {| status_code := 200; body := DumpAll rms |}, dbsession)
    ∧ (∀ rm, rm ∈ rms ↔ ∃ i, dbsession !! i = Some rm)
    ∧ length rms = size dbsession.
Proof.
  intros Hroute Hmethod Hrole.
  exists ((map_to_list dbsession).*2). split; [| split].
  - apply handle_dispatch. unfold dispatch.
    rewrite (init_collection _ Hroute). simpl. rewrite Hroute, Hmethod.
    rewrite (secured_returns _ _ _ _ static_acl); [| by apply acl_without_id].
    rewrite permits_static. simpl.
    destruct Hrole as [Hrole | Hrole];
      rewrite (bool_decide_eq_true_2 _ Hrole); simpl;
      by rewrite ?orb_true_r.
  - intros rm. rewrite list_elem_of_fmap. split.
    + intros ([i rm'] & -> & Hin). exists i.
      by apply elem_of_map_to_list.
    + intros [i Hrow]. exists (i, rm). split; [done |].
      by apply elem_of_map_to_list.
  - by rewrite length_fmap, length_map_to_list.
Qed.

Lemma get_row req dbsession id u rm :
  route req = report_models_item id →
  method req = GET →
  id ≠ "" →
  UUID id = Some u →
  dbsession !! u = Some rm →
  "ROLE_REPORTS_ADMIN" ∈ effective_principals req
  ∨ "ROLE_SUPERUSER" ∈ effective_principals req →
  handle req dbsession
  = (Returns {| status_code := 200; body := Dump rm |}, dbsession).
Proof.
  intros Hroute Hmethod Hne Hparse Hrow Hrole.
  set (context := {| request := req; report_models_id := Some u |}).
  assert (__init__ req = Returns context) as Hinit
    by (apply (init_item req id); auto).
  destruct (permits_row context dbsession u rm "view" eq_refl Hrow)
    as (acl & Hacl & Hpermits).
  apply handle_dispatch. unfold dispatch. rewrite Hinit. simpl.
  rewrite Hroute, Hmethod.
  rewrite (secured_returns _ _ _ _ _ Hacl), Hpermits, permits_static.
  simpl.
  assert (bool_decide ("ROLE_REPORTS_ADMIN" ∈ effective_principals req)
          || bool_decide ("ROLE_SUPERUSER" ∈ effective_principals req) = true)
    as Hgranted.
  { destruct Hrole as [Hrole | Hrole];
      rewrite (bool_decide_eq_true_2 _ Hrole); by rewrite ?orb_true_r. }
  destruct (bool_decide ("ROLE_REPORTS_ADMIN" ∈ _)),
    (bool_decide ("ROLE_SUPERUSER" ∈ _)); try done;
    simpl; unfold get, get_object; simpl; by rewrite Hrow.
Qed.

(** X3: GET of a stored row by a principal with one of the two roles: 200 with
    that row and the store as it was, so that asking again gives the same
    answer.  Reading does not depend on the layer-admin check. *)
Theorem get_returns_the_row req dbsession id u rm :
  route req = report_models_item id →
  method req = GET →
  id ≠ "" →
  UUID id = Some u →
  dbsession !! u = Some rm →
  "ROLE_REPORTS_ADMIN" ∈ effective_principals req
  ∨ "ROLE_SUPERUSER" ∈ effective_principals req →
  handle req dbsession
  = (Returns {| status_code := 200; body := Dump rm |}, dbsession)
  ∧ handle req (handle req dbsession).2 = handle req dbsession.
Proof.
  intros Hroute Hmethod Hne Hparse Hrow Hrole.
  pose proof (get_row req dbsession id u rm Hroute Hmethod Hne Hparse Hrow
                Hrole) as Hget.
  rewrite Hget. simpl. by rewrite Hget.
Qed.

End Permissions.

(** ** Changing a stored row *)

Section Changes.
Context `{Environment}.
Import AdminReportModelView.

Lemma permits_static_edit principals :
  permits static_acl principals "edit"
  = bool_decide ("ROLE_SUPERUSER" ∈ principals).
Proof.
  rewrite permits_static.
  change (bool_decide ("edit" ∈ ["list"; "add"; "view"])) with false.
  change (bool_decide ("edit" ∈ ["list"; "add"; "view"; "edit"; "delete"]))
    with true.
  by rewrite andb_false_r, andb_true_r.
Qed.

Lemma permits_static_delete principals :
  permits static_acl principals "delete"
  = bool_decide ("ROLE_SUPERUSER" ∈ principals).
Proof.
  rewrite permits_static.
  change (bool_decide ("delete" ∈ ["list"; "add"; "view"])) with false.
  change (bool_decide ("delete" ∈ ["list"; "add"; "view"; "edit"; "delete"]))
    with true.
  by rewrite andb_false_r, andb_true_r.
Qed.

(** The policy on edit and delete for a request that addresses a stored
    row. *)
Lemma permits_change req dbsession u rm permission :
  permission = "edit" ∨ permission = "delete" →
  dbsession !! u = Some rm →
  ∃ acl,
    __acl__ {| request := req; report_models_id := Some u |} dbsession
    = Returns acl
    ∧ permits acl (effective_principals req) permission = may_change req rm.
Proof.
  intros Hpermission Hrow.
  destruct (permits_row {| request := req; report_models_id := Some u |}
              dbsession u rm permission eq_refl Hrow)
    as (acl & Hacl & Hpermits).
  exists acl. split; [done |]. cbn [request] in Hpermits. rewrite Hpermits.
  unfold may_change.
  destruct Hpermission as [-> | ->].
  - rewrite permits_static_edit.
    change (bool_decide ("edit" ∈ ["edit"; "delete"])) with true.
    by rewrite andb_true_r.
  - rewrite permits_static_delete.
    change (bool_decide ("delete" ∈ ["edit"; "delete"])) with true.
    by rewrite andb_true_r.
Qed.

(** X4: DELETE of a stored row is decided by [may_change] alone: the row is
    removed and the answer is 204 for a superuser and for a reports admin
    who administers its layer and is named among the principals; anybody
    else is answered 403 and the row stays. *)
Theorem delete_decision req dbsession id u rm :
  route req = report_models_item id →
  method req = DELETE →
  id ≠ "" →
  UUID id = Some u →
  dbsession !! u = Some rm →
  handle req dbsession
  = if may_change req rm
    then (Returns {| status_code := 204; body := NoBody |},
          base.delete u dbsession)
    else (Raises HTTPForbidden, dbsession).
Proof.
  intros Hroute Hmethod Hne Hparse Hrow.
  destruct (permits_change req dbsession u rm "delete") as (acl & Hacl & Hp);
    [by right | done |].
  unfold handle, dispatch.
  rewrite (init_item req id u) by auto. simpl. rewrite Hroute, Hmethod.
  rewrite (secured_returns _ _ _ _ _ Hacl). simpl. rewrite Hp.
  destruct (may_change req rm); [| done].
  unfold delete, get_object, session_delete. simpl. by rewrite Hrow.
Qed.

(** X5: POST on the [tjs_view] of a stored row takes the edit permission: for
    those who may change the row the answer names the view of that row and
    the table is as it was; anybody else is answered 403. *)
Theorem tjs_view_decision req dbsession id u rm :
  route req = tjs_views id →
  method req = POST →
  id ≠ "" →
  UUID id = Some u →
  dbsession !! u = Some rm →
  handle req dbsession
  = if may_change req rm
    then (Returns {| status_code := 200; body := View (tjs_view_name rm) |},
          dbsession)
    else (Raises HTTPForbidden, dbsession).
Proof.
  intros Hroute Hmethod Hne Hparse Hrow.
  destruct (permits_change req dbsession u rm "edit") as (acl & Hacl & Hp);
    [by left | done |].
  unfold handle, dispatch.
  rewrite (init_item req id u) by auto. simpl. rewrite Hroute, Hmethod.
  rewrite (secured_returns _ _ _ _ _ Hacl). simpl. rewrite Hp.
  destruct (may_change req rm); [| done].
  unfold post_tjs_view, get_object. simpl. by rewrite Hrow.
Qed.

(** X6: PUT on a stored row: 403 for those who may not change the row the
    URL addresses; for the others 400 with the errors of the validator
    when there are any, the store being as it was in both cases; and
    otherwise 200 with the dump of the validated instance, whichever it
    is, with the caller as [updated_by] and the clock as [updated_at]. *)
Theorem update_decision req dbsession id u rm :
  route req = report_models_item id →
  method req = PUT →
  id ≠ "" →
  UUID id = Some u →
  dbsession !! u = Some rm →
  (handle req dbsession).1
  = (if may_change req rm then
       match marshmallow_validator
               {| request := req; report_models_id := Some u |} dbsession with
       | inl errors =>
           Returns {| status_code := 400; body := Errors errors |}
       | inr validated =>
           Returns
             {| status_code := 200;
                body :=
                  Dump {| id_ := id_ validated;
                          name := name validated;
                          layer_id := layer_id validated;
                          custom_field_schema := custom_field_schema validated;
                          created_by := created_by validated;
                          created_at := created_at validated;
                          updated_by := authenticated_userid req;
                          updated_at := now req |} |}
       end
     else Raises HTTPForbidden)
  ∧ (may_change req rm = false
     ∨ (∃ errors,
          marshmallow_validator
            {| request := req; report_models_id := Some u |} dbsession
          = inl errors) →
     (handle req dbsession).2 = dbsession).
Proof.
  intros Hroute Hmethod Hne Hparse Hrow.
  destruct (permits_change req dbsession u rm "edit") as (acl & Hacl & Hp);
    [by left | done |].
  unfold handle.
  rewrite (dispatch_update req dbsession id _ acl Hroute Hmethod
             (init_item req id u (or_introl Hroute) Hne Hparse) Hacl).
  rewrite Hp. destruct (may_change req rm); [| done].
  destruct (marshmallow_validator _ _) as [errors | validated] eqn:Hv.
  { done. }
  unfold put, get_object. simpl. rewrite Hrow. simpl.
  split; [done |]. intros [? | [errors ?]]; done.
Qed.

End Changes.

(** ** Creating rows, and what a write leaves behind *)

Section Written.
Context `{Environment}.
Import AdminReportModelView.

Lemma permits_static_add principals :
  permits static_acl principals "add"
  = bool_decide ("ROLE_REPORTS_ADMIN" ∈ principals)
    || bool_decide ("ROLE_SUPERUSER" ∈ principals).
Proof.
  rewrite permits_static.
  change (bool_decide ("add" ∈ ["list"; "add"; "view"])) with true.
  change (bool_decide ("add" ∈ ["list"; "add"; "view"; "edit"; "delete"]))
    with true.
  by rewrite !andb_true_r.
Qed.

(** X7: POST on [/report_models]: 403 without one of the two roles; otherwise
    400 with the errors of the validator when there are any; otherwise the
    row made of the body, with the caller as creator and updater and the
    clock as both time stamps, is stored under the identifier drawn for
    it, and the answer is 201 with that row (an identifier that is
    already a key makes the flush fail and nothing is stored). *)
Theorem create_decision req dbsession :
  route req = report_models_collection →
  method req = POST →
  handle req dbsession
  = if bool_decide ("ROLE_REPORTS_ADMIN" ∈ effective_principals req)
       || bool_decide ("ROLE_SUPERUSER" ∈ effective_principals req)
    then
      match marshmallow_validator
              {| request := req; report_models_id := None |} dbsession with
      | inl errors =>
          (Returns {| status_code := 400; body := Errors errors |}, dbsession)
      | inr _ =>
          let row :=
            {| id_ := uuid4 req;
               name := body_name (json_body req);
               layer_id := body_layer_id (json_body req);
               custom_field_schema := body_custom_field_schema (json_body req);
               created_by := authenticated_userid req;
               created_at := now req;
               updated_by := authenticated_userid req;
               updated_at := now req |} in
          match dbsession !! uuid4 req with
          | Some _ => (Raises IntegrityError, dbsession)
          | None =>
              (Returns {| status_code := 201; body := Dump row |},
               <[uuid4 req := row]> dbsession)
          end
      end
    else (Raises HTTPForbidden, dbsession).
Proof.
  intros Hroute Hmethod. unfold handle.
  rewrite (dispatch_create _ _ Hroute Hmethod), permits_static_add.
  destruct (_ || _); [| done].
  destruct (marshmallow_validator _ _) as [errors | validated] eqn:Hv;
    [done |].
  apply validator_loads in Hv as (-> & _ & _).
  unfold collection_post, add_flush, load_instance. simpl.
  by destruct (dbsession !! uuid4 req).
Qed.

(** X8: PUT on a well-formed id that is the key of no row: a reports admin is
    answered not-found by the ACL; a superuser who is not a reports admin
    reaches the validator first, and is answered 400 for a body with
    errors and not-found only for a valid one; anybody else is answered
    403.  The store is as it was in every case. *)
Theorem update_of_unknown_id req dbsession id u :
  route req = report_models_item id →
  method req = PUT →
  id ≠ "" →
  UUID id = Some u →
  dbsession !! u = None →
  handle req dbsession
  = if bool_decide ("ROLE_REPORTS_ADMIN" ∈ effective_principals req)
    then (Raises HTTPNotFound, dbsession)
    else if bool_decide ("ROLE_SUPERUSER" ∈ effective_principals req)
    then
      match marshmallow_validator
              {| request := req; report_models_id := Some u |} dbsession with
      | inl errors =>
          (Returns {| status_code := 400; body := Errors errors |}, dbsession)
      | inr _ => (Raises HTTPNotFound, dbsession)
      end
    else (Raises HTTPForbidden, dbsession).
Proof.
  intros Hroute Hmethod Hne Hparse Hmissing.
  set (context := {| request := req; report_models_id := Some u |}).
  assert (__init__ req = Returns context) as Hinit
    by (apply (init_item req id); auto).
  case_bool_decide as Hadmin.
  - apply handle_dispatch_raises.
    apply (dispatch_acl_raises _ _ id context); [| done |].
    + left. split; [done |]. rewrite Hmethod, !elem_of_cons. auto.
    + by apply (acl_missing _ _ u).
  - unfold handle.
    rewrite (dispatch_update req dbsession id context static_acl Hroute
               Hmethod Hinit (acl_without_role context _ Hadmin)).
    rewrite permits_static_edit.
    case_bool_decide as Hsuper; [| done].
    destruct (marshmallow_validator _ _) as [errors | validated]; [done |].
    unfold put, get_object. simpl. by rewrite Hmissing.
Qed.

(** What a create that reports success has done. *)
Lemma create_inversion req dbsession response dbsession' :
  route req = report_models_collection →
  method req = POST →
  handle req dbsession = (Returns response, dbsession') →
  successful response →
  ∃ row,
    response = {| status_code := 201; body := Dump row |}
    ∧ id_ row = uuid4 req
    ∧ layer_id row = body_layer_id (json_body req)
    ∧ is_user_admin_on_layer req (layer_id row) = true
    ∧ dbsession !! uuid4 req = None
    ∧ dbsession' = <[uuid4 req := row]> dbsession.
Proof.
  unfold handle, successful. intros Hroute Hmethod Hhandle Hok.
  destruct (dispatch req dbsession) as [[response0 dbsession0] | e] eqn:Hd;
    [| done].
  injection Hhandle as -> ->.
  rewrite (dispatch_create _ _ Hroute Hmethod) in Hd.
  destruct (permits _ _ _); [| done].
  destruct (marshmallow_validator _ _) as [errors | validated] eqn:Hv.
  { injection Hd as <- _. simpl in Hok. lia. }
  apply validator_loads in Hv as (-> & _ & Hlayer). simpl in Hlayer.
  unfold collection_post, add_flush in Hd. simpl in Hd.
  destruct (dbsession !! uuid4 req) eqn:Hfresh; [done |].
  simpl in Hd. injection Hd as <- <-. eexists.
  split; [done |]. simpl. done.
Qed.

(** What an update that reports success has done. *)
Lemma update_inversion req dbsession id response dbsession' :
  route req = report_models_item id →
  method req = PUT →
  handle req dbsession = (Returns response, dbsession') →
  successful response →
  ∃ u old row,
    id ≠ "" ∧ UUID id = Some u
    ∧ dbsession !! u = Some old
    ∧ may_change req old = true
    ∧ response = {| status_code := 200; body := Dump row |}
    ∧ layer_id row = body_layer_id (json_body req)
    ∧ is_user_admin_on_layer req (layer_id row) = true
    ∧ dbsession' = <[u := row]> dbsession.
Proof.
  unfold handle, successful. intros Hroute Hmethod Hhandle Hok.
  destruct (dispatch req dbsession) as [[response0 dbsession0] | e] eqn:Hd;
    [| done].
  injection Hhandle as -> ->.
  destruct (__init__ req) as [self | e] eqn:Hinit;
    [| unfold dispatch in Hd; by rewrite Hinit in Hd].
  destruct (__acl__ self dbsession) as [acl | e] eqn:Hacl.
  2: { rewrite (dispatch_acl_raises req dbsession id self e) in Hd;
         [done | | done ..].
       left. split; [done |]. rewrite Hmethod, !elem_of_cons. auto. }
  rewrite (dispatch_update _ _ _ _ _ Hroute Hmethod Hinit Hacl) in Hd.
  destruct (permits _ _ _) eqn:Hpermits; [| done].
  destruct (marshmallow_validator _ _) as [errors | validated] eqn:Hv.
  { injection Hd as <- _. simpl in Hok. lia. }
  apply validator_loads in Hv as (-> & _ & Hlayer).
  pose proof (init_request _ _ Hinit) as Hrequest.
  rewrite Hrequest in Hlayer.
  unfold put, get_object, write_back, load_instance in Hd.
  rewrite Hrequest in Hd.
  destruct self as [req0 [u |]]; simpl in *; [| done]. subst req0.
  destruct (dbsession !! u) as [old |] eqn:Hrow; [| done].
  simpl in Hd. injection Hd as <- <-.
  destruct (decide (id = "")) as [-> | Hne].
  { unfold __init__ in Hinit.
    rewrite (matchdict_of_item req "") in Hinit by auto. done. }
  assert (UUID id = Some u) as Hparse.
  { rewrite (init_with_id req id) in Hinit;
      [| by apply matchdict_of_item; left | done].
    destruct (UUID id); by simplify_eq. }
  destruct (permits_change req dbsession u old "edit") as (acl' & Hacl' & Hp);
    [by left | done |].
  rewrite Hacl in Hacl'. injection Hacl' as <-.
  exists u, old. eexists.
  split; [done |]. split; [done |]. split; [done |].
  split; [by rewrite <- Hp |]. split; [done |]. simpl. done.
Qed.

(** X9: A create that reports success has stored a row whose layer the
    caller administers, a superuser's included; and an update reports
    success only to a caller who may change the row that the URL
    addresses, as it was stored before, and who administers the layer that
    the body names. *)
Theorem writes_need_layer_admin req dbsession response dbsession' :
  handle req dbsession = (Returns response, dbsession') →
  successful response →
  (route req = report_models_collection → method req = POST →
     ∃ row, body response = Dump row
            ∧ dbsession' !! uuid4 req = Some row
            ∧ is_user_admin_on_layer req (layer_id row) = true)
  ∧ (∀ id, route req = report_models_item id → method req = PUT →
       ∃ u old, UUID id = Some u
            ∧ dbsession !! u = Some old
            ∧ may_change req old = true
            ∧ is_user_admin_on_layer req (body_layer_id (json_body req))
              = true).
Proof.
  intros Hhandle Hok. split.
  - intros Hroute Hmethod.
    destruct (create_inversion _ _ _ _ Hroute Hmethod Hhandle Hok)
      as (row & -> & _ & _ & Hlayer & _ & ->).
    exists row. by rewrite lookup_insert_eq.
  - intros id Hroute Hmethod.
    destruct (update_inversion _ _ _ _ _ Hroute Hmethod Hhandle Hok)
      as (u & old & row & _ & Hparse & Hold & Hmay & _ & Hbody & Hlayer & _).
    exists u, old. by rewrite <- Hbody.
Qed.

(** X10: The row in the answer of a successful create is the row that a GET
    of its identifier returns afterwards, to any principal with one of the
    two roles. *)
Theorem written_row_is_read_back req dbsession response dbsession' req' id' :
  route req = report_models_collection →
  method req = POST →
  handle req dbsession = (Returns response, dbsession') →
  successful response →
  route req' = report_models_item id' →
  method req' = GET →
  id' ≠ "" →
  UUID id' = Some (uuid4 req) →
  "ROLE_REPORTS_ADMIN" ∈ effective_principals req'
  ∨ "ROLE_SUPERUSER" ∈ effective_principals req' →
  handle req' dbsession'
  = (Returns {| status_code := 200; body := body response |}, dbsession').
Proof.
  intros Hroute Hmethod Hhandle Hok Hroute' Hmethod' Hne' Hparse' Hrole'.
  destruct (create_inversion _ _ _ _ Hroute Hmethod Hhandle Hok)
    as (row & -> & _ & _ & _ & _ & ->).
  apply (get_row req' _ id' (uuid4 req)); auto.
  apply lookup_insert_eq.
Qed.

End Written.

(** ** Where the store can change *)

Section Footprint.
Context `{Environment}.
Import AdminReportModelView.

(** X11: A request leaves the store as it was unless it is a create answered
    201, an update answered 200 or a delete answered 204: reads, the
    [tjs_view] service, refused requests and requests that fail never
    change a row. *)
Theorem store_changes_only_by_writes req dbsession :
  (handle req dbsession).2 = dbsession
  ∨ ∃ response,
      (handle req dbsession).1 = Returns response
      ∧ ((route req = report_models_collection ∧ method req = POST
          ∧ status_code response = 201)
         ∨ ((∃ id, route req = report_models_item id)
            ∧ (method req = PUT ∧ status_code response = 200
               ∨ method req = DELETE ∧ status_code response = 204))).
Proof.
  unfold handle.
  destruct (dispatch req dbsession) as [[response dbsession'] | e] eqn:Hd;
    [| by left].
  simpl. unfold dispatch in Hd.
  destruct (__init__ req) as [self | e] eqn:Hinit; [| done]. simpl in Hd.
  destruct (route req) as [| id | id] eqn:Hroute,
    (method req) eqn:Hmethod;
    unfold secured, validated_by in Hd;
    try (destruct (__acl__ self dbsession) as [acl | e]; [| done];
         simpl in Hd; destruct (permits _ _ _); [| done]);
    try (destruct (marshmallow_validator self dbsession)
           as [errors | validated]);
    unfold collection_get, collection_post, add_flush, get, put, delete,
      post_tjs_view in Hd;
    try (destruct (get_object self dbsession); [| done]);
    try (destruct (dbsession !! uuid4 (request self)); [done |]);
    simpl in Hd; injection Hd as <- <-;
    first [ by left | right; eexists; split; [done |]; simpl; eauto 10 ].
Qed.

End Footprint.

(** ** The shape of the layer list *)

Section LayerList.
Context `{Security}.

Lemma fmap_const_replicate {A B} (b : B) (l : list A) :
  (λ _, b) <$> l = replicate (length l) b.
Proof. induction l as [| a l IH]; simpl; [done | by rewrite <- IH]. Qed.

Lemma get_layers_succeeds req geoserver layers layer_rules_json :
  ¬ 400 ≤ remote_status (layers_json geoserver) < 600 →
  remote_json (layers_json geoserver) = Some layers →
  200 ≤ remote_status (layers_acl geoserver) < 300 →
  remote_json (layers_acl geoserver) = Some layer_rules_json →
  get_layers req geoserver
  = Returns (authorized_layers layers layer_rules_json
               (effective_principals req)).
Proof.
  intros Hlayers_status Hlayers Hacl_status Hacl.
  unfold get_layers, raise_for_status, get_geoserver_layers_acl, json.
  replace ((400 <=? remote_status (layers_json geoserver))
           && (remote_status (layers_json geoserver) <? 600)) with false
    by (symmetry; apply andb_false_iff; lia).
  replace ((200 <=? remote_status (layers_acl geoserver))
           && (remote_status (layers_acl geoserver) <? 300)) with true
    by (symmetry; apply andb_true_iff; lia).
  simpl. rewrite Hlayers. simpl. by rewrite Hacl.
Qed.

Lemma authorized_layers_replicate layers layer_rules_json principals :
  authorized_layers layers layer_rules_json principals
  = layer ← layers;
    replicate
      (length (filter (λ layer_rules,
                         Rule.match_ grants_access
                           (Rule_parse layer_rules.1 layer_rules.2)
                           (layer_name layer) principals = true)
                      layer_rules_json))
      (layer_name layer).
Proof.
  rewrite layers_loop. induction layers as [| layer rest IH]; [done |].
  by rewrite !bind_cons, IH, fmap_const_replicate.
Qed.

(** X12: When both calls succeed, the list that [get_layers] returns goes
    through the layers in the order of the map server's document and has
    the name of each layer once for every entry of the ACL document that
    matches it: a layer matched by two entries is listed twice. *)
Theorem layers_listed_per_matching_rule req geoserver layers layer_rules_json :
  ¬ 400 ≤ remote_status (layers_json geoserver) < 600 →
  remote_json (layers_json geoserver) = Some layers →
  200 ≤ remote_status (layers_acl geoserver) < 300 →
  remote_json (layers_acl geoserver) = Some layer_rules_json →
  get_layers req geoserver
  = Returns
      (layer ← layers;
       replicate
         (length (filter (λ layer_rules,
                            Rule.match_ grants_access
                              (Rule_parse layer_rules.1 layer_rules.2)
                              (layer_name layer) (effective_principals req)
                            = true)
                         layer_rules_json))
         (layer_name layer)).
Proof.
  intros Hlayers_status Hlayers Hacl_status Hacl.
  rewrite (get_layers_succeeds req geoserver layers layer_rules_json)
    by done.
  by rewrite authorized_layers_replicate.
Qed.

(** X13: The returned list has no repeated name when the layers of the document
    have distinct names and none of them is matched by two entries of the
    ACL document. *)
Theorem layers_listed_once req geoserver layers layer_rules_json :
  ¬ 400 ≤ remote_status (layers_json geoserver) < 600 →
  remote_json (layers_json geoserver) = Some layers →
  200 ≤ remote_status (layers_acl geoserver) < 300 →
  remote_json (layers_acl geoserver) = Some layer_rules_json →
  NoDup (layer_name <$> layers) →
  (∀ layer, layer ∈ layers →
     (length (filter (λ layer_rules,
                        Rule.match_ grants_access
                          (Rule_parse layer_rules.1 layer_rules.2)
                          (layer_name layer) (effective_principals req)
                        = true)
                     layer_rules_json) ≤ 1)%nat) →
  ∃ names, get_layers req geoserver = Returns names ∧ NoDup names.
Proof.
  intros Hlayers_status Hlayers Hacl_status Hacl Hnames Honce.
  eexists. split; [by apply get_layers_succeeds |].
  rewrite authorized_layers_replicate.
  clear Hlayers. induction layers as [| layer rest IH].
  { constructor. }
  rewrite bind_cons. rewrite fmap_cons in Hnames.
  apply NoDup_cons in Hnames as [Hfresh Hnames].
  assert (NoDup
            (layer0 ← rest;
             replicate
               (length (filter (λ layer_rules,
                                  Rule.match_ grants_access
                                    (Rule_parse layer_rules.1 layer_rules.2)
                                    (layer_name layer0)
                                    (effective_principals req) = true)
                               layer_rules_json))
               (layer_name layer0))) as Hrest.
  { apply IH; [done |]. intros layer0 Hin. apply Honce. by right. }
  assert (layer ∈ layer :: rest) as Hhere by by left.
  specialize (Honce layer Hhere).
  destruct (length (filter _ layer_rules_json)) as [| [| n]]; simpl;
    [done | | lia].
  apply NoDup_cons. split; [| done].
  intros Hin. apply list_elem_of_bind in Hin as (layer0 & Hin & Hlayer0).
  apply elem_of_replicate_inv in Hin. apply Hfresh.
  rewrite Hin. by apply list_elem_of_fmap_2.
Qed.

(** X14: With no entry in the ACL document nobody is shown any layer, and with
    no layer on the map server nothing is listed, whoever asks. *)
Theorem nothing_listed_without_rules_or_layers req geoserver :
  ¬ 400 ≤ remote_status (layers_json geoserver) < 600 →
  200 ≤ remote_status (layers_acl geoserver) < 300 →
  (∀ layers, remote_json (layers_json geoserver) = Some layers →
     remote_json (layers_acl geoserver) = Some [] →
     get_layers req geoserver = Returns [])
  ∧ (∀ layer_rules_json,
       remote_json (layers_json geoserver) = Some [] →
       remote_json (layers_acl geoserver) = Some layer_rules_json →
       get_layers req geoserver = Returns []).
Proof.
  intros Hlayers_status Hacl_status. split.
  - intros layers Hlayers Hacl.
    rewrite (get_layers_succeeds req geoserver layers []) by done.
    rewrite authorized_layers_replicate. f_equal. clear Hlayers.
    induction layers as [| layer rest IH]; [done |].
    by rewrite bind_cons, IH.
  - intros layer_rules_json Hlayers Hacl.
    by rewrite (get_layers_succeeds req geoserver [] layer_rules_json).
Qed.

End LayerList.

(** * The further properties on the data of the test suite *)

Section MoreTests.
#[local] Existing Instance test_environment.
#[local] Existing Instance test_security.
Import AdminReportModelView.

(** [test_delete_forbidden], first case. *)
Lemma no_role_witness :
  handle (test_request DELETE (report_models_item id_allowed) USER_ADMIN []
            (post_payload ALLOWED_LAYER)) test_data
  = (Raises HTTPForbidden, test_data).
Proof.
  apply (no_role_is_forbidden
           (test_request DELETE (report_models_item id_allowed) USER_ADMIN []
              (post_payload ALLOWED_LAYER)) test_data
           {| request := test_request DELETE (report_models_item id_allowed)
                           USER_ADMIN [] (post_payload ALLOWED_LAYER);
              report_models_id := Some 1%N |}).
  - reflexivity.
  - intros Hin. apply (bool_decide_pack _) in Hin. vm_compute in Hin.
    exact Hin.
  - intros Hin. apply (bool_decide_pack _) in Hin. vm_compute in Hin.
    exact Hin.
  - right. left. split; [by exists id_allowed | evaluate].
Defined.

(** [test_collection_get_success] *)
Lemma collection_get_witness :
  ∃ rms,
    handle (test_request GET report_models_collection USER_ADMIN
              [ROLE_REPORTS_ADMIN] (post_payload ALLOWED_LAYER)) test_data
    = (Returns {| status_code := 200; body := DumpAll rms |}, test_data)
    ∧ (∀ rm, rm ∈ rms ↔ ∃ i, test_data !! i = Some rm)
    ∧ length rms = size test_data.
Proof.
  apply (collection_get_lists_the_store
           (test_request GET report_models_collection USER_ADMIN
              [ROLE_REPORTS_ADMIN] (post_payload ALLOWED_LAYER)) test_data);
    [reflexivity | reflexivity |].
  left. evaluate.
Defined.

(** A superuser reads the row of a layer nobody administers. *)
Lemma get_witness :
  handle (test_request GET (report_models_item id_denied) "root"
            ["ROLE_SUPERUSER"] (post_payload ALLOWED_LAYER)) test_data
  = (Returns {| status_code := 200; body := Dump existing_denied |}, test_data).
Proof.
  apply (get_returns_the_row
           (test_request GET (report_models_item id_denied) "root"
              ["ROLE_SUPERUSER"] (post_payload ALLOWED_LAYER))
           test_data id_denied 2%N existing_denied);
    [reflexivity | reflexivity | done | reflexivity | reflexivity |].
  right. evaluate.
Defined.

(** [test_delete_success]; a superuser deletes the row of the denied layer;
    [test_delete_forbidden], second case. *)
Lemma delete_decision_witness :
  handle (test_request DELETE (report_models_item id_allowed) USER_ADMIN
            [ROLE_REPORTS_ADMIN] (post_payload ALLOWED_LAYER)) test_data
  = (Returns {| status_code := 204; body := NoBody |},
     base.delete 1%N test_data)
  ∧ handle (test_request DELETE (report_models_item id_denied) "root"
              ["ROLE_SUPERUSER"] (post_payload ALLOWED_LAYER)) test_data
    = (Returns {| status_code := 204; body := NoBody |},
       base.delete 2%N test_data)
  ∧ handle (test_request DELETE (report_models_item id_denied) USER_ADMIN
              [ROLE_REPORTS_ADMIN] (post_payload ALLOWED_LAYER)) test_data
    = (Raises HTTPForbidden, test_data).
Proof.
  split; [| split].
  - exact (delete_decision
             (test_request DELETE (report_models_item id_allowed) USER_ADMIN
                [ROLE_REPORTS_ADMIN] (post_payload ALLOWED_LAYER))
             test_data id_allowed 1%N existing_allowed
             eq_refl eq_refl ltac:(done) eq_refl eq_refl).
  - exact (delete_decision
             (test_request DELETE (report_models_item id_denied) "root"
                ["ROLE_SUPERUSER"] (post_payload ALLOWED_LAYER))
             test_data id_denied 2%N existing_denied
             eq_refl eq_refl ltac:(done) eq_refl eq_refl).
  - exact (delete_decision
             (test_request DELETE (report_models_item id_denied) USER_ADMIN
                [ROLE_REPORTS_ADMIN] (post_payload ALLOWED_LAYER))
             test_data id_denied 2%N existing_denied
             eq_refl eq_refl ltac:(done) eq_refl eq_refl).
Defined.

(** The [tjs_view] of the two rows, asked for by the reports admin of the
    tests. *)
Lemma tjs_view_witness :
  handle (test_request POST (tjs_views id_allowed) USER_ADMIN
            [ROLE_REPORTS_ADMIN] (post_payload ALLOWED_LAYER)) test_data
  = (Returns {| status_code := 200; body := View "existing_allowed" |},
     test_data)
  ∧ handle (test_request POST (tjs_views id_denied) USER_ADMIN
              [ROLE_REPORTS_ADMIN] (post_payload ALLOWED_LAYER)) test_data
    = (Raises HTTPForbidden, test_data).
Proof.
  split.
  - exact (tjs_view_decision
             (test_request POST (tjs_views id_allowed) USER_ADMIN
                [ROLE_REPORTS_ADMIN] (post_payload ALLOWED_LAYER))
             test_data id_allowed 1%N existing_allowed
             eq_refl eq_refl ltac:(done) eq_refl eq_refl).
  - exact (tjs_view_decision
             (test_request POST (tjs_views id_denied) USER_ADMIN
                [ROLE_REPORTS_ADMIN] (post_payload ALLOWED_LAYER))
             test_data id_denied 2%N existing_denied
             eq_refl eq_refl ltac:(done) eq_refl eq_refl).
Defined.

(** [test_put_success], [test_put_not_layer_admin] and
    [test_put_forbidden] *)
Lemma update_decision_witness :
  (handle (test_request PUT (report_models_item id_allowed) "ANOTHER_USER"
             [ROLE_REPORTS_ADMIN] (put_payload ALLOWED_LAYER)) test_data).1
  = Returns {| status_code := 200; body := Dump updated_row |}
  ∧ handle (test_request PUT (report_models_item id_allowed) USER_ADMIN
              [ROLE_REPORTS_ADMIN] (put_payload DENIED_LAYER)) test_data
    = (Returns {| status_code := 400;
                  body := Errors [layer_id_error DENIED_LAYER] |}, test_data)
  ∧ handle (test_request PUT (report_models_item id_denied) USER_ADMIN
              [ROLE_REPORTS_ADMIN] (put_payload ALLOWED_LAYER)) test_data
    = (Raises HTTPForbidden, test_data).
Proof.
  split; [| split].
  - exact (proj1 (update_decision
                    (test_request PUT (report_models_item id_allowed)
                       "ANOTHER_USER" [ROLE_REPORTS_ADMIN]
                       (put_payload ALLOWED_LAYER))
                    test_data id_allowed 1%N existing_allowed
                    eq_refl eq_refl ltac:(done) eq_refl eq_refl)).
  - destruct (update_decision
                (test_request PUT (report_models_item id_allowed) USER_ADMIN
                   [ROLE_REPORTS_ADMIN] (put_payload DENIED_LAYER))
                test_data id_allowed 1%N existing_allowed
                eq_refl eq_refl ltac:(done) eq_refl eq_refl)
      as [Hanswer Hstore].
    apply injective_projections; [exact Hanswer |].
    apply Hstore. right. by eexists.
  - destruct (update_decision
                (test_request PUT (report_models_item id_denied) USER_ADMIN
                   [ROLE_REPORTS_ADMIN] (put_payload ALLOWED_LAYER))
                test_data id_denied 2%N existing_denied
                eq_refl eq_refl ltac:(done) eq_refl eq_refl)
      as [Hanswer Hstore].
    apply injective_projections; [exact Hanswer |].
    apply Hstore. by left.
Defined.

(** [test_collection_post_success] and [test_collection_post_forbidden] *)
Lemma create_decision_witness :
  handle (test_request POST report_models_collection USER_ADMIN
            [ROLE_REPORTS_ADMIN] (post_payload ALLOWED_LAYER)) test_data
  = (Returns {| status_code := 201; body := Dump created_row |},
     <[3%N := created_row]> test_data)
  ∧ handle (test_request POST report_models_collection USER_ADMIN []
              (post_payload ALLOWED_LAYER)) test_data
    = (Raises HTTPForbidden, test_data).
Proof.
  split.
  - exact (create_decision
             (test_request POST report_models_collection USER_ADMIN
                [ROLE_REPORTS_ADMIN] (post_payload ALLOWED_LAYER))
             test_data eq_refl eq_refl).
  - exact (create_decision
             (test_request POST report_models_collection USER_ADMIN []
                (post_payload ALLOWED_LAYER))
             test_data eq_refl eq_refl).
Defined.

(** [test_put_not_found], and the same request by a superuser with a body
    that the validator refuses. *)
Lemma update_of_unknown_id_witness :
  handle (test_request PUT (report_models_item id_unknown) USER_ADMIN
            [ROLE_REPORTS_ADMIN] (put_payload ALLOWED_LAYER)) test_data
  = (Raises HTTPNotFound, test_data)
  ∧ handle (test_request PUT (report_models_item id_unknown) "root"
              ["ROLE_SUPERUSER"] (put_payload DENIED_LAYER)) test_data
    = (Returns {| status_code := 400;
                  body := Errors [layer_id_error DENIED_LAYER] |}, test_data).
Proof.
  split.
  - exact (update_of_unknown_id
             (test_request PUT (report_models_item id_unknown) USER_ADMIN
                [ROLE_REPORTS_ADMIN] (put_payload ALLOWED_LAYER))
             test_data id_unknown 255%N
             eq_refl eq_refl ltac:(done) eq_refl eq_refl).
  - exact (update_of_unknown_id
             (test_request PUT (report_models_item id_unknown) "root"
                ["ROLE_SUPERUSER"] (put_payload DENIED_LAYER))
             test_data id_unknown 255%N
             eq_refl eq_refl ltac:(done) eq_refl eq_refl).
Defined.

(** The row that [test_collection_post_success] stores is on the layer
    that the test user administers, and [test_put_success] is the update
    of a row that its caller may change, with a layer that the caller
    administers. *)
Lemma writes_need_layer_admin_witness :
  (∃ row, <[3%N := created_row]> test_data !! 3%N = Some row
          ∧ layer_id row = ALLOWED_LAYER)
  ∧ (∃ old, test_data !! 1%N = Some old
            ∧ layer_id old = ALLOWED_LAYER).
Proof.
  split.
  - destruct (writes_need_layer_admin _ _ _ _ create_succeeds) as [Hcreate _];
      [unfold successful; simpl; lia |].
    destruct (Hcreate eq_refl eq_refl) as (row & _ & Hstored & Hlayer).
    exists row. split; [exact Hstored |].
    apply bool_decide_eq_true in Hlayer. exact Hlayer.
  - destruct (writes_need_layer_admin _ _ _ _ update_succeeds) as [_ Hupdate];
      [unfold successful; simpl; lia |].
    destruct (Hupdate id_allowed eq_refl eq_refl)
      as (u & old & Hparse & Hold & _ & _).
    assert (u = 1%N) as -> by (vm_compute in Hparse; congruence).
    exists old. split; [exact Hold |].
    vm_compute in Hold. injection Hold as <-. reflexivity.
Defined.

(** The row of [test_collection_post_success], read back. *)
Lemma written_row_witness :
  handle (test_request GET
            (report_models_item "00000000-0000-0000-0000-000000000003")
            "ANOTHER_USER" [ROLE_REPORTS_ADMIN] (post_payload ALLOWED_LAYER))
    (<[3%N := created_row]> test_data)
  = (Returns {| status_code := 200; body := Dump created_row |},
     <[3%N := created_row]> test_data).
Proof.
  apply (written_row_is_read_back
           (test_request POST report_models_collection USER_ADMIN
              [ROLE_REPORTS_ADMIN] (post_payload ALLOWED_LAYER))
           test_data _ _
           (test_request GET
              (report_models_item "00000000-0000-0000-0000-000000000003")
              "ANOTHER_USER" [ROLE_REPORTS_ADMIN]
              (post_payload ALLOWED_LAYER))
           "00000000-0000-0000-0000-000000000003"
           eq_refl eq_refl create_succeeds);
    [unfold successful; simpl; lia | reflexivity | reflexivity | done
    | reflexivity | left; evaluate].
Defined.

(** The map server of the tests: one layer and two entries that match it
    for a reports admin. *)
Lemma layers_per_rule_witness :
  get_layers (test_request GET report_models_collection USER_ADMIN
                [ROLE_REPORTS_ADMIN] (post_payload ALLOWED_LAYER))
    (test_geoserver 200 200)
  = Returns (replicate 2 "roads").
Proof.
  etrans.
  - apply (layers_listed_per_matching_rule
             (test_request GET report_models_collection USER_ADMIN
                [ROLE_REPORTS_ADMIN] (post_payload ALLOWED_LAYER))
             (test_geoserver 200 200) test_layers test_rules);
      [simpl; lia | reflexivity | simpl; lia | reflexivity].
  - vm_compute. reflexivity.
Defined.

(** Two layers and four entries: each layer is matched by exactly one of
    them for a reports admin, and both names are listed, once each. *)
Lemma layers_once_witness :
  ∃ names,
    @get_layers security_by_layer
      (test_request GET report_models_collection USER_ADMIN
         [ROLE_REPORTS_ADMIN] (post_payload ALLOWED_LAYER))
      {| layers_json := {| remote_status := 200;
                           remote_json := Some two_layers |};
         layers_acl := {| remote_status := 200;
                          remote_json := Some rules_by_layer |} |}
    = Returns names
    ∧ names = ["roads"; "rivers"]
    ∧ NoDup names.
Proof.
  destruct (@layers_listed_once security_by_layer
              (test_request GET report_models_collection USER_ADMIN
                 [ROLE_REPORTS_ADMIN] (post_payload ALLOWED_LAYER))
              {| layers_json := {| remote_status := 200;
                                   remote_json := Some two_layers |};
                 layers_acl := {| remote_status := 200;
                                  remote_json := Some rules_by_layer |} |}
              two_layers rules_by_layer)
    as (names & Hreturns & Hnodup).
  - simpl. lia.
  - reflexivity.
  - simpl. lia.
  - reflexivity.
  - evaluate.
  - intros layer Hin. unfold two_layers in Hin.
    rewrite !elem_of_cons, elem_of_nil in Hin.
    destruct Hin as [-> | [-> | []]]; vm_compute; lia.
  - exists names. split; [exact Hreturns |]. split; [| exact Hnodup].
    vm_compute in Hreturns. injection Hreturns as <-. reflexivity.
Defined.

(** A map server without ACL entries, and one without layers. *)
Lemma nothing_listed_witness :
  get_layers (test_request GET report_models_collection USER_ADMIN
                [ROLE_REPORTS_ADMIN] (post_payload ALLOWED_LAYER))
    {| layers_json := {| remote_status := 200;
                         remote_json := Some test_layers |};
       layers_acl := {| remote_status := 200; remote_json := Some [] |} |}
  = Returns []
  ∧ get_layers (test_request GET report_models_collection USER_ADMIN
                  [ROLE_REPORTS_ADMIN] (post_payload ALLOWED_LAYER))
      {| layers_json := {| remote_status := 200; remote_json := Some [] |};
         layers_acl := {| remote_status := 200;
                          remote_json := Some test_rules |} |}
    = Returns [].
Proof.
  split.
  - destruct (nothing_listed_without_rules_or_layers
                (test_request GET report_models_collection USER_ADMIN
                   [ROLE_REPORTS_ADMIN] (post_payload ALLOWED_LAYER))
                {| layers_json := {| remote_status := 200;
                                     remote_json := Some test_layers |};
                   layers_acl := {| remote_status := 200;
                                    remote_json := Some [] |} |})
      as [Hrules _]; [simpl; lia | simpl; lia |].
    apply (Hrules test_layers); reflexivity.
  - destruct (nothing_listed_without_rules_or_layers
                (test_request GET report_models_collection USER_ADMIN
                   [ROLE_REPORTS_ADMIN] (post_payload ALLOWED_LAYER))
                {| layers_json := {| remote_status := 200;
                                     remote_json := Some [] |};
                   layers_acl := {| remote_status := 200;
                                    remote_json := Some test_rules |} |})
      as [_ Hlayers]; [simpl; lia | simpl; lia |].
    apply (Hlayers test_rules); reflexivity.
Defined.

End MoreTests.

(** ** Creating and then deleting *)

Section Composition.
Context `{Environment}.
Import AdminReportModelView.

(** What a delete that returns has done. *)
Lemma delete_inversion req dbsession id response dbsession' :
  route req = report_models_item id →
  method req = DELETE →
  handle req dbsession = (Returns response, dbsession') →
  ∃ u rm,
    UUID id = Some u
    ∧ dbsession !! u = Some rm
    ∧ response = {| status_code := 204; body := NoBody |}
    ∧ dbsession' = base.delete u dbsession.
Proof.
  unfold handle. intros Hroute Hmethod Hhandle.
  destruct (dispatch req dbsession) as [[response0 dbsession0] | e] eqn:Hd;
    [| done].
  injection Hhandle as -> ->. unfold dispatch in Hd.
  destruct (__init__ req) as [self | e] eqn:Hinit; [| done].
  simpl in Hd. rewrite Hroute, Hmethod in Hd. unfold secured in Hd.
  destruct (__acl__ self dbsession) as [acl | e]; [| done]. simpl in Hd.
  destruct (permits _ _ _); [| done].
  unfold delete, get_object, session_delete in Hd.
  destruct self as [req0 [u |]]; simpl in Hd; [| done].
  destruct (dbsession !! u) as [rm |] eqn:Hrow; [| done].
  simpl in Hd. injection Hd as <- <-.
  destruct (decide (id = "")) as [-> | Hne].
  { unfold __init__ in Hinit.
    rewrite (matchdict_of_item req "") in Hinit by auto. done. }
  rewrite (init_with_id req id) in Hinit;
    [| by apply matchdict_of_item; left | done].
  destruct (UUID id) as [u' |]; [| done]. injection Hinit as _ <-.
  by exists u', rm.
Qed.

(** X15: a create that is answered 201 followed by a delete of the created
    record that returns leaves the store exactly as it was before the
    create. *)
Theorem create_then_delete_restores req dbsession response dbsession'
    req' id' response' dbsession'' :
  route req = report_models_collection →
  method req = POST →
  handle req dbsession = (Returns response, dbsession') →
  successful response →
  route req' = report_models_item id' →
  method req' = DELETE →
  UUID id' = Some (uuid4 req) →
  handle req' dbsession' = (Returns response', dbsession'') →
  status_code response' = 204 ∧ dbsession'' = dbsession.
Proof.
  intros Hroute Hmethod Hcreate Hok Hroute' Hmethod' Hparse' Hdelete.
  destruct (create_inversion _ _ _ _ Hroute Hmethod Hcreate Hok)
    as (row & _ & _ & _ & _ & Hfresh & ->).
  destruct (delete_inversion _ _ _ _ _ Hroute' Hmethod' Hdelete)
    as (u & rm & Hparse & _ & -> & ->).
  split; [done |].
  rewrite Hparse' in Hparse. injection Hparse as <-.
  rewrite delete_insert_eq. by apply delete_id.
Qed.

End Composition.

Section CompositionTests.
#[local] Existing Instance test_environment.

Lemma delete_of_created_row :
  handle (test_request DELETE
            (report_models_item "00000000-0000-0000-0000-000000000003")
            USER_ADMIN [ROLE_REPORTS_ADMIN] (post_payload ALLOWED_LAYER))
    (<[3%N := created_row]> test_data)
  = (Returns {| status_code := 204; body := NoBody |},
     base.delete 3%N (<[3%N := created_row]> test_data)).
Proof. reflexivity. Qed.

(** [test_collection_post_success] undone by a delete of the new record. *)
Lemma create_then_delete_witness :
  base.delete 3%N (<[3%N := created_row]> test_data) = test_data.
Proof.
  apply (create_then_delete_restores
           (test_request POST report_models_collection USER_ADMIN
              [ROLE_REPORTS_ADMIN] (post_payload ALLOWED_LAYER))
           test_data _ _
           (test_request DELETE
              (report_models_item "00000000-0000-0000-0000-000000000003")
              USER_ADMIN [ROLE_REPORTS_ADMIN] (post_payload ALLOWED_LAYER))
           "00000000-0000-0000-0000-000000000003" _ _
           eq_refl eq_refl create_succeeds
           ltac:(unfold successful; simpl; lia)
           eq_refl eq_refl eq_refl delete_of_created_row).
Defined.

End CompositionTests.
